(** * The offline exchange simulator ([trading_bot/bot/mock_exchange.py])

    A shallow embedding of the class [MockExchange] and the properties of
    its ledger, order life cycle and synthetic market data, followed by
    the symbol conversion and the account report of its client
    ([trading_bot/bot/mock_client.py]).

    Modelling conventions.
    - Python [float] values are exact rationals ([Qc], canonical fractions
      with Leibniz equality); binary64 rounding is not modelled.  The
      theorems therefore state numbers by the expressions of the source
      ([free - needed], [amount * order_price], [price * (1 - 0.0001 *
      (i + 1))]) and compare them with a margin; none of them states a
      law of exact arithmetic that binary64 lacks, such as
      [(a - x) + x = a], [total = free + used] over a run, or the decimal
      value of a product.  The integer literals [0] that the source mixes
      with floats ([filled = 0], [order['remaining'] = 0]) are the
      rational zero.
    - A Python [dict] is an insertion-ordered association list ([Dict]),
      because the source iterates over [items()] and [values()].
    - Methods are computations in a state-and-exception monad over the
      instance ([M]); a raised exception keeps the instance as it was at
      the [raise].
    - [random.random()] and [time.time()] are oracles: a method that calls
      them takes the successive readings as a function of the call number.
    - Logging calls and the constant or clock-valued response fields that
      no property reads ([timestamp], [datetime], [lastTradeTimestamp],
      [fee], [trades], [info], [nonce]) are left out. *)

From Stdlib Require Import Ascii String QArith Qcanon Lqa.
From stdpp Require Import base decidable option list strings numbers pretty sorting.

Open Scope string_scope.
Open Scope Qc_scope.

(** ** Rational arithmetic helpers *)

(** Python's [max(a, b)] keeps [a] unless [b] is strictly larger, and
    [min(a, b)] keeps [a] unless [b] is strictly smaller. *)
Definition Qcmax (a b : Qc) : Qc := if decide (a < b) then b else a.
Definition Qcmin (a b : Qc) : Qc := if decide (b < a) then b else a.

(** [int(x)] truncates towards zero. *)
Definition int (x : Qc) : Z := Z.quot (Qnum x) (Z.pos (Qden x)).

(** The injection of a Python [int] into the floats. *)
Definition float (z : Z) : Qc := Q2Qc (inject_Z z).

(** [random.uniform(a, b)] is [a + (b - a) * random()]; [u] is the reading
    of [random()]. *)
Definition uniform (u a b : Qc) : Qc := a + (b - a) * u.

(** ** Insertion-ordered dictionaries *)

Module Dict.
Section dict.
Context {V : Type}.

(** [d.get(k)], with [None] for a missing key. *)
Fixpoint get (k : string) (d : list (string * V)) : option V :=
  match d with
  | [] => None
  | (k', v) :: d' => if decide (k = k') then Some v else get k d'
  end.

(** [d[k] = v]: an existing key keeps its position, a new key goes last. *)
Fixpoint set (k : string) (v : V) (d : list (string * V)) : list (string * V) :=
  match d with
  | [] => [(k, v)]
  | (k', v') :: d' =>
      if decide (k = k') then (k, v) :: d' else (k', v') :: set k v d'
  end.

(** [k in d]. *)
Definition contains (k : string) (d : list (string * V)) : bool :=
  match get k d with Some _ => true | None => false end.

Definition keys (d : list (string * V)) : list string := d.*1.
Definition values (d : list (string * V)) : list V := d.*2.
End dict.
End Dict.

Abbreviation dict V := (list (string * V)).

(** ** Data model *)

(** One entry of [self.balances]: [{'free': _, 'used': _, 'total': _}]. *)
Record Balance := mkBalance { free : Qc; used : Qc; total : Qc }.

(** The order dictionary built by [create_order]. *)
Record Order := mkOrder {
  o_id : string;
  o_clientOrderId : string;
  o_symbol : string;
  o_type : string;
  o_side : string;
  o_price : Qc;
  o_amount : Qc;
  o_cost : Qc;
  o_average : Qc;
  o_filled : Qc;
  o_remaining : Qc;
  o_status : string
}.

(** One candle [[timestamp, open, high, low, close, volume]]. *)
Record Candle := mkCandle {
  c_timestamp : Z;
  c_open : Qc;
  c_high : Qc;
  c_low : Qc;
  c_close : Qc;
  c_volume : Qc
}.

(** The attributes of a [MockExchange] instance. *)
Record MockExchange := mkExchange {
  balances : dict Balance;
  orders : dict Order;
  order_counter : Z;
  current_prices : dict Qc;
  price_history : dict (list Candle)
}.

Definition set_balances (f : dict Balance → dict Balance) (self : MockExchange) :=
  mkExchange (f (balances self)) (orders self) (order_counter self)
             (current_prices self) (price_history self).
Definition set_orders (f : dict Order → dict Order) (self : MockExchange) :=
  mkExchange (balances self) (f (orders self)) (order_counter self)
             (current_prices self) (price_history self).
Definition set_order_counter (f : Z → Z) (self : MockExchange) :=
  mkExchange (balances self) (orders self) (f (order_counter self))
             (current_prices self) (price_history self).
Definition set_current_prices (f : dict Qc → dict Qc) (self : MockExchange) :=
  mkExchange (balances self) (orders self) (order_counter self)
             (f (current_prices self)) (price_history self).

(** ** Exceptions and the method monad *)

(** [MockExchangeError] carries its message; [KeyError] (a missing
    dictionary key) and [ValueError] (a failed unpacking) are Python's own. *)
Inductive Exception :=
  | MockExchangeError (msg : string)
  | KeyError (key : string)
  | ValueError (msg : string).

Inductive Result (A : Type) :=
  | Return (a : A)
  | Raise (e : Exception).
Arguments Return {A} a.
Arguments Raise {A} e.

Definition M (A : Type) : Type := MockExchange → Result A * MockExchange.

#[global] Instance M_ret : MRet M := λ A a self, (Return a, self).
#[global] Instance M_bind : MBind M := λ A B f m self,
  match m self with
  | (Return a, self') => f a self'
  | (Raise e, self') => (Raise e, self')
  end.

Definition raise {A} (e : Exception) : M A := λ self, (Raise e, self).
Definition read : M MockExchange := λ self, (Return self, self).
Definition modify (f : MockExchange → MockExchange) : M unit :=
  λ self, (Return tt, f self).

(** [if cond: raise e]. *)
Definition raise_if (cond : bool) (e : Exception) : M unit :=
  if cond then raise e else mret tt.

(** [d[k]], raising [KeyError] for a missing key. *)
Definition subscript {V} (d : dict V) (k : string) : M V :=
  match Dict.get k d with
  | Some v => mret v
  | None => raise (KeyError k)
  end.

(** [self.balances[asset][field] = f(self.balances[asset][field])], the
    shape of the augmented assignments [-=] and [+=] on a balance entry. *)
Definition update_balance (asset : string) (f : Balance → Balance) : M unit :=
  self ← read;
  b ← subscript (balances self) asset;
  modify (set_balances (Dict.set asset (f b))).

Definition sub_free (x : Qc) (b : Balance) := mkBalance (free b - x) (used b) (total b).
Definition add_free (x : Qc) (b : Balance) := mkBalance (free b + x) (used b) (total b).
Definition sub_used (x : Qc) (b : Balance) := mkBalance (free b) (used b - x) (total b).
Definition add_used (x : Qc) (b : Balance) := mkBalance (free b) (used b + x) (total b).

(** ** Strings *)

(** [s.split(sep)] for a one-character separator. *)
Fixpoint split (sep : ascii) (s : string) : list string :=
  match s with
  | EmptyString => [EmptyString]
  | String c s' =>
      if decide (c = sep) then EmptyString :: split sep s'
      else match split sep s' with
           | [] => [String c EmptyString]
           | w :: ws => String c w :: ws
           end
  end.

(** [base, quote = symbol.split('/')]: unpacking needs exactly two parts. *)
Definition unpack_pair (parts : list string) : M (string * string) :=
  match parts with
  | [base; quote] => mret (base, quote)
  | _ => raise (ValueError "wrong number of values to unpack")
  end.

(** ** Construction *)

Section construction.
(** [clock j] is the [j]-th reading of [time.time()] (seconds) and
    [rnd k] the [k]-th reading of [random.random()] during [__init__]. *)
Variable clock : nat → Qc.
Variable rnd : nat → Qc.

(** The body of [for i in range(24)], run for the [n] remaining rounds;
    [k] counts the random readings consumed so far. *)
Fixpoint candle_loop (current_time : Z) (n : nat) (i : Z) (k : nat)
    (current_price : Qc) : list Candle :=
  match n with
  | O => []
  | S n' =>
      let open_price := current_price in
      let close_price := current_price * uniform (rnd k) (Q2Qc 0.98) (Q2Qc 1.02) in
      let high_price :=
        Qcmax open_price close_price * uniform (rnd (k + 1)) (Q2Qc 1.00) (Q2Qc 1.02) in
      let low_price :=
        Qcmin open_price close_price * uniform (rnd (k + 2)) (Q2Qc 0.98) (Q2Qc 1.00) in
      let volume := uniform (rnd (k + 3)) (Q2Qc 100) (Q2Qc 1000) in
      mkCandle (current_time + i * 3600 * 1000) open_price high_price low_price
               close_price volume
      :: candle_loop current_time n' (i + 1) (k + 4) close_price
  end.

(** The body of [for symbol, price in self.current_prices.items()], for
    the [j]-th item onwards. *)
Fixpoint history_loop (items : list (string * Qc)) (j : nat)
    (history : dict (list Candle)) : dict (list Candle) :=
  match items with
  | [] => history
  | (symbol, price) :: items' =>
      let current_time := int ((clock j - Q2Qc 3600 * Q2Qc 24) * Q2Qc 1000) in
      let current_price := price * Q2Qc 0.95 in
      let candles := candle_loop current_time 24 0 (4 * 24 * j) current_price in
      history_loop items' (S j) (Dict.set symbol candles history)
  end.

Definition _generate_price_history (current_prices : dict Qc) : dict (list Candle) :=
  history_loop current_prices 0 [].

Definition initial_balances : dict Balance :=
  [ ("USDT", mkBalance (Q2Qc 10000.00) (Q2Qc 0.00) (Q2Qc 10000.00));
    ("BTC", mkBalance (Q2Qc 0.05) (Q2Qc 0.00) (Q2Qc 0.05));
    ("ETH", mkBalance (Q2Qc 1.5) (Q2Qc 0.00) (Q2Qc 1.5));
    ("BNB", mkBalance (Q2Qc 10.0) (Q2Qc 0.00) (Q2Qc 10.0)) ].

Definition initial_prices : dict Qc :=
  [ ("BTC/USDT", Q2Qc 45000.00);
    ("ETH/USDT", Q2Qc 2500.00);
    ("BNB/USDT", Q2Qc 450.00);
    ("ADA/USDT", Q2Qc 1.20);
    ("SOL/USDT", Q2Qc 180.00) ].

Definition __init__ : MockExchange :=
  mkExchange initial_balances [] 1000 initial_prices
             (_generate_price_history initial_prices).
End construction.

(** ** The adapter methods *)

(** The three dictionaries returned by [fetch_balance]. *)
Record BalanceData := mkBalanceData {
  bd_free : dict Qc;
  bd_used : dict Qc;
  bd_total : dict Qc
}.

Definition balance_data_set (symbol : string) (free used total : Qc)
    (bd : BalanceData) : BalanceData :=
  mkBalanceData (Dict.set symbol free (bd_free bd))
                (Dict.set symbol used (bd_used bd))
                (Dict.set symbol total (bd_total bd)).

Definition fetch_balance : M BalanceData :=
  self ← read;
  let balance_data := mkBalanceData [] [] [] in
  let balance_data :=
    foldl (λ bd '(symbol, amounts),
             balance_data_set symbol (free amounts) (used amounts) (total amounts) bd)
          balance_data (balances self) in
  let balance_data :=
    foldl (λ bd symbol, balance_data_set symbol (Q2Qc 0.0) (Q2Qc 0.0) (Q2Qc 0.0) bd)
          balance_data ["XRP"; "DOGE"; "SHIB"] in
  mret balance_data.

Definition create_order (symbol order_type side : string) (amount : Qc)
    (price : option Qc) : M Order :=
  self ← read;
  raise_if (negb (Dict.contains symbol (current_prices self)))
           (MockExchangeError ("Unknown symbol: " ++ symbol));;
  raise_if (negb (bool_decide (order_type ∈ ["market"; "limit"])))
           (MockExchangeError ("Unknown order type: " ++ order_type));;
  raise_if (negb (bool_decide (side ∈ ["buy"; "sell"])))
           (MockExchangeError ("Unknown side: " ++ side));;
  (* if order_type == 'market' or price is None: ... else: ... *)
  '(order_price, order_status, filled) ←
    match bool_decide (order_type = "market"), price with
    | false, Some price => mret (price, "open", 0)
    | _, _ =>
        current ← subscript (current_prices self) symbol;
        mret (current * (if bool_decide (side = "buy") then Q2Qc 1.001 else Q2Qc 0.999),
              "closed", amount)
    end;
  '(base, quote) ← unpack_pair (split "/" symbol);
  (if bool_decide (side = "buy") then
     let needed := amount * order_price in
     self ← read;
     b ← subscript (balances self) quote;
     raise_if (bool_decide (free b < needed))
              (MockExchangeError ("Insufficient " ++ quote ++ " balance"));;
     update_balance quote (sub_free needed);;
     update_balance quote (add_used needed)
   else
     self ← read;
     b ← subscript (balances self) base;
     raise_if (bool_decide (free b < amount))
              (MockExchangeError ("Insufficient " ++ base ++ " balance"));;
     update_balance base (sub_free amount);;
     update_balance base (add_used amount));;
  self ← read;
  let order_id := pretty (order_counter self) in
  modify (set_order_counter (λ c, c + 1)%Z);;
  let order :=
    mkOrder order_id ("mock-" ++ order_id) symbol order_type side order_price amount
            (amount * order_price) order_price filled (amount - filled) order_status in
  modify (set_orders (Dict.set order_id order));;
  mret order.

(** [order['status'] = 'canceled'; order['remaining'] = 0], on the
    dictionary object that [self.orders] holds. *)
Definition mark_canceled (order : Order) : Order :=
  mkOrder (o_id order) (o_clientOrderId order) (o_symbol order) (o_type order)
          (o_side order) (o_price order) (o_amount order) (o_cost order)
          (o_average order) (o_filled order) 0 "canceled".

Definition cancel_order (order_id symbol : string) : M Order :=
  self ← read;
  raise_if (negb (Dict.contains order_id (orders self)))
           (MockExchangeError ("Order not found: " ++ order_id));;
  order ← subscript (orders self) order_id;
  raise_if (bool_decide (o_status order = "closed"))
           (MockExchangeError ("Cannot cancel closed order: " ++ order_id));;
  '(base, quote) ← unpack_pair (split "/" (o_symbol order));
  let cancelled_cost := o_remaining order * o_price order in
  (if bool_decide (o_side order = "buy") then
     update_balance quote (sub_used cancelled_cost);;
     update_balance quote (add_free cancelled_cost)
   else
     update_balance base (sub_used (o_remaining order));;
     update_balance base (add_free (o_remaining order)));;
  modify (set_orders (Dict.set order_id (mark_canceled order)));;
  mret (mark_canceled order).

Definition fetch_order (order_id symbol : string) : M Order :=
  self ← read;
  raise_if (negb (Dict.contains order_id (orders self)))
           (MockExchangeError ("Order not found: " ++ order_id));;
  subscript (orders self) order_id.

(** [if symbol:] holds for a string that is neither [None] nor empty. *)
Definition fetch_open_orders (symbol : option string) : M (list Order) :=
  self ← read;
  let open_orders :=
    filter (λ order, o_status order = "open") (Dict.values (orders self)) in
  let open_orders :=
    match symbol with
    | Some symbol =>
        if bool_decide (symbol = "") then open_orders
        else filter (λ o, o_symbol o = symbol) open_orders
    | None => open_orders
    end in
  mret open_orders.

(** The numeric fields of the ticker dictionary. *)
Record Ticker := mkTicker {
  t_symbol : string;
  t_high : Qc;
  t_low : Qc;
  t_bid : Qc;
  t_bidVolume : Qc;
  t_ask : Qc;
  t_askVolume : Qc;
  t_vwap : Qc;
  t_open : Qc;
  t_close : Qc;
  t_last : Qc;
  t_previousClose : Qc;
  t_change : Qc;
  t_percentage : Qc;
  t_average : Qc;
  t_baseVolume : Qc;
  t_quoteVolume : Qc
}.

(** [rnd k] is the [k]-th reading of [random.random()] during the call. *)
Definition fetch_ticker (rnd : nat → Qc) (symbol : string) : M Ticker :=
  self ← read;
  raise_if (negb (Dict.contains symbol (current_prices self)))
           (MockExchangeError ("Unknown symbol: " ++ symbol));;
  price ← subscript (current_prices self) symbol;
  let spread := price * Q2Qc 0.0005 in
  let price := price * uniform (rnd 0%nat) (Q2Qc 0.9995) (Q2Qc 1.0005) in
  modify (set_current_prices (Dict.set symbol price));;
  mret (mkTicker symbol (price * Q2Qc 1.02) (price * Q2Qc 0.98)
          (price - spread) (uniform (rnd 1%nat) (Q2Qc 100) (Q2Qc 1000))
          (price + spread) (uniform (rnd 2%nat) (Q2Qc 100) (Q2Qc 1000))
          price (price * Q2Qc 0.98) price price (price * Q2Qc 0.99)
          (price - price * Q2Qc 0.99) (Q2Qc 1.0) price
          (uniform (rnd 3%nat) (Q2Qc 1000) (Q2Qc 10000))
          (uniform (rnd 4%nat) (Q2Qc 50000) (Q2Qc 500000))).

(** A level [[price, size]] of the book.  Python orders lists
    lexicographically. *)
Definition level_le (x y : Qc * Qc) : Prop :=
  x.1 < y.1 ∨ (x.1 = y.1 ∧ x.2 ≤ y.2).

#[global] Instance level_le_dec x y : Decision (level_le x y).
Proof. unfold level_le. apply _. Defined.

(** [sorted(l)] and [sorted(l, reverse=True)]. *)
Definition sorted (l : list (Qc * Qc)) : list (Qc * Qc) := merge_sort level_le l.
Definition sorted_reverse (l : list (Qc * Qc)) : list (Qc * Qc) :=
  merge_sort (flip level_le) l.

Record OrderBook := mkOrderBook {
  ob_symbol : string;
  ob_bids : list (Qc * Qc);
  ob_asks : list (Qc * Qc)
}.

(** [limit or 20]: [None] and [0] are falsy. *)
Definition limit_or (limit : option Z) (default : Z) : Z :=
  match limit with
  | Some l => if bool_decide (l = 0%Z) then default else l
  | None => default
  end.

(** [range(n)]: empty for a negative [n]. *)
Definition range (n : Z) : list nat := seq 0 (Z.to_nat n).

Definition bid_level (rnd : nat → Qc) (price : Qc) (i : nat) : Qc * Qc :=
  (price * (1 - Q2Qc 0.0001 * (float (Z.of_nat i) + 1)),
   uniform (rnd (2 * i)%nat) (Q2Qc 0.1) (Q2Qc 10)).
Definition ask_level (rnd : nat → Qc) (price : Qc) (i : nat) : Qc * Qc :=
  (price * (1 + Q2Qc 0.0001 * (float (Z.of_nat i) + 1)),
   uniform (rnd (2 * i + 1)%nat) (Q2Qc 0.1) (Q2Qc 10)).

(** The loop appends one bid and one ask per round, drawing the bid size
    first. *)
Definition fetch_order_book (rnd : nat → Qc) (symbol : string) (limit : option Z)
    : M OrderBook :=
  self ← read;
  raise_if (negb (Dict.contains symbol (current_prices self)))
           (MockExchangeError ("Unknown symbol: " ++ symbol));;
  price ← subscript (current_prices self) symbol;
  let limit := limit_or limit 20 in
  let bids := bid_level rnd price <$> range limit in
  let asks := ask_level rnd price <$> range limit in
  mret (mkOrderBook symbol (sorted_reverse bids) (sorted asks)).

(** [l[start:]] with Python's treatment of negative and oversized starts. *)
Definition slice_from {A} (start : Z) (l : list A) : list A :=
  let n := Z.of_nat (length l) in
  let start := if bool_decide (start < 0)%Z then Z.max (start + n) 0 else Z.min start n in
  drop (Z.to_nat start) l.

Definition fetch_ohlcv (symbol timeframe : string) (limit : option Z)
    : M (list Candle) :=
  self ← read;
  raise_if (negb (Dict.contains symbol (current_prices self)))
           (MockExchangeError ("Unknown symbol: " ++ symbol));;
  let candles := default [] (Dict.get symbol (price_history self)) in
  let candles :=
    match limit with
    | Some l => if bool_decide (l = 0%Z) then candles else slice_from (- l) candles
    | None => candles
    end in
  mret candles.

(** [try: self.fetch_balance(); return True; except Exception: return False]. *)
Definition test_connection : M bool :=
  λ self, match fetch_balance self with
          | (Return _, self') => (Return true, self')
          | (Raise _, self') => (Return false, self')
          end.

(** ** Runs of the adapter *)

(** One call on the adapter surface. *)
Inductive Call :=
  | CreateOrder (symbol order_type side : string) (amount : Qc) (price : option Qc)
  | CancelOrder (order_id symbol : string)
  | FetchOrder (order_id symbol : string)
  | FetchOpenOrders (symbol : option string)
  | FetchBalance
  | FetchTicker (rnd : nat → Qc) (symbol : string)
  | FetchOrderBook (rnd : nat → Qc) (symbol : string) (limit : option Z)
  | FetchOhlcv (symbol timeframe : string) (limit : option Z)
  | TestConnection.

(** The instance after a call, whether it returned or raised. *)
Definition step (self : MockExchange) (c : Call) : MockExchange :=
  match c with
  | CreateOrder symbol order_type side amount price =>
      (create_order symbol order_type side amount price self).2
  | CancelOrder order_id symbol => (cancel_order order_id symbol self).2
  | FetchOrder order_id symbol => (fetch_order order_id symbol self).2
  | FetchOpenOrders symbol => (fetch_open_orders symbol self).2
  | FetchBalance => (fetch_balance self).2
  | FetchTicker rnd symbol => (fetch_ticker rnd symbol self).2
  | FetchOrderBook rnd symbol limit => (fetch_order_book rnd symbol limit self).2
  | FetchOhlcv symbol timeframe limit => (fetch_ohlcv symbol timeframe limit self).2
  | TestConnection => (test_connection self).2
  end.

Definition run (self : MockExchange) (calls : list Call) : MockExchange :=
  foldl step self calls.

(** A sample environment for closed examples: the clock starts at
    1.7e9 seconds and advances by a millisecond per reading, and the
    random readings run through the hundredths in steps of 0.37. *)
Definition sample_clock : nat → Qc :=
  λ j, Q2Qc (1700000000 + inject_Z (Z.of_nat j) / 1000).
Definition sample_rnd : nat → Qc :=
  λ k, Q2Qc (inject_Z (Z.of_nat ((37 * k + 11) mod 100)) / 100).
Definition seed : MockExchange := __init__ sample_clock sample_rnd.

(** ** The vocabulary of the properties

    Plain functions for the quantities that [create_order] and
    [cancel_order] compute along the way.  The lemmas
    [create_order_returns] and [cancel_order_returns] below tie them to
    the methods. *)

(** The slippage factor of the market branch. *)
Definition slippage (side : string) : Qc :=
  if bool_decide (side = "buy") then Q2Qc 1.001 else Q2Qc 0.999.

(** The test [order_type == 'market' or price is None]. *)
Definition fills_at_once (order_type : string) (price : option Qc) : bool :=
  match bool_decide (order_type = "market"), price with
  | false, Some _ => false
  | _, _ => true
  end.

(** [order_price], given the current price of the symbol. *)
Definition execution_price (current : Qc) (order_type side : string)
    (price : option Qc) : Qc :=
  match bool_decide (order_type = "market"), price with
  | false, Some price => price
  | _, _ => current * slippage side
  end.

(** The asset an order locks and how much of it. *)
Definition reserve_asset (side base quote : string) : string :=
  if bool_decide (side = "buy") then quote else base.
Definition reserve_amount (side : string) (amount order_price : Qc) : Qc :=
  if bool_decide (side = "buy") then amount * order_price else amount.

(** The order record for the given counter value and current price. *)
Definition built_order (counter : Z) (current : Qc) (symbol order_type side : string)
    (amount : Qc) (price : option Qc) : Order :=
  let order_price := execution_price current order_type side price in
  let filled := if fills_at_once order_type price then amount else 0 in
  mkOrder (pretty counter) ("mock-" ++ pretty counter) symbol order_type side
          order_price amount (amount * order_price) order_price filled
          (amount - filled)
          (if fills_at_once order_type price then "closed" else "open").

(** A balance entry after [free -= x; used += x]. *)
Definition lock (x : Qc) (b : Balance) : Balance := add_used x (sub_free x b).
(** A balance entry after [used -= x; free += x]. *)
Definition unlock (x : Qc) (b : Balance) : Balance := add_free x (sub_used x b).

(** The amount [cancel_order] hands back for an order: [cancelled_cost]
    for a buy, [order['remaining']] otherwise. *)
Definition release_amount (order : Order) : Qc :=
  if bool_decide (o_side order = "buy")
  then o_remaining order * o_price order
  else o_remaining order.

(** The asset whose balance an order locks: the quote asset of its symbol
    for a buy, the base asset otherwise. *)
Definition locked_asset (order : Order) : string :=
  match split "/" (o_symbol order) with
  | [base; quote] => reserve_asset (o_side order) base quote
  | _ => ""
  end.

(** The total of an asset, if it has a balance entry. *)
Definition total_of (asset : string) (self : MockExchange) : option Qc :=
  total <$> Dict.get asset (balances self).

(** ** Steps of a run and what they preserve *)

(** The ways a call can change the instance. *)
Inductive Effect (self : MockExchange) : Call → MockExchange → Prop :=
  | effect_none c : Effect self c self
  | effect_create symbol order_type side amount price current base quote b :
      Dict.get symbol (current_prices self) = Some current →
      order_type ∈ ["market"; "limit"] →
      side ∈ ["buy"; "sell"] →
      split "/" symbol = [base; quote] →
      Dict.get (reserve_asset side base quote) (balances self) = Some b →
      ¬ free b < reserve_amount side amount
                  (execution_price current order_type side price) →
      Effect self (CreateOrder symbol order_type side amount price)
        (mkExchange
           (Dict.set (reserve_asset side base quote)
              (lock (reserve_amount side amount
                       (execution_price current order_type side price)) b)
              (balances self))
           (Dict.set (pretty (order_counter self))
              (built_order (order_counter self) current symbol order_type side
                 amount price)
              (orders self))
           (order_counter self + 1) (current_prices self) (price_history self))
  | effect_cancel order_id symbol order base quote b :
      Dict.get order_id (orders self) = Some order →
      o_status order ≠ "closed" →
      split "/" (o_symbol order) = [base; quote] →
      Dict.get (reserve_asset (o_side order) base quote) (balances self) = Some b →
      Effect self (CancelOrder order_id symbol)
        (mkExchange
           (Dict.set (reserve_asset (o_side order) base quote)
              (unlock (release_amount order) b) (balances self))
           (Dict.set order_id (mark_canceled order) (orders self))
           (order_counter self) (current_prices self) (price_history self))
  | effect_ticker rnd symbol price :
      Dict.get symbol (current_prices self) = Some price →
      Effect self (FetchTicker rnd symbol)
        (set_current_prices
           (Dict.set symbol (price * uniform (rnd 0%nat) (Q2Qc 0.9995) (Q2Qc 1.0005)))
           self).

(** The key sets of the balance and price tables and the candle series
    stay as [__init__] made them. *)
Record frozen (init self : MockExchange) : Prop := {
  frozen_balances : Dict.keys (balances self) = Dict.keys (balances init);
  frozen_prices : Dict.keys (current_prices self) = Dict.keys (current_prices init);
  frozen_history : price_history self = price_history init
}.

(** What holds of an order stored under key [k]. *)
Record order_wf (self : MockExchange) (k : string) (o : Order) : Prop := {
  wf_id : o_id o = k;
  wf_number : ∃ n : Z, k = pretty n ∧ (1000 ≤ n < order_counter self)%Z;
  wf_split : ∃ base quote, split "/" (o_symbol o) = [base; quote];
  wf_asset : is_Some (Dict.get (locked_asset o) (balances self));
  wf_status : o_status o ∈ ["open"; "closed"; "canceled"];
  wf_canceled : o_status o = "canceled" → o_remaining o = 0;
  wf_open : o_status o = "open" →
            o_type o = "limit" ∧ o_filled o = 0 ∧ o_remaining o = o_amount o
}.

(** The order table of an instance reached by a run. *)
Record consistent (self : MockExchange) : Prop := {
  counter_from_1000 : (1000 ≤ order_counter self)%Z;
  stored_orders_wf : ∀ k o, (k, o) ∈ orders self → order_wf self k o
}.

(** A ticker poll whose reading of [random.random()] for the price move
    lies between 0 and 1; every other call passes. *)
Definition unit_poll (c : Call) : Prop :=
  match c with
  | FetchTicker rnd _ => 0 ≤ rnd 0%nat ∧ rnd 0%nat ≤ 1
  | _ => True
  end.

#[global] Instance unit_poll_dec c : Decision (unit_poll c).
Proof. destruct c; cbn [unit_poll]; apply _. Defined.

(** ** Order identifiers and candle series *)

(** The id that a call assigns: the [id] of the order returned by a
    [create_order] that does not raise. *)
Definition created_id (self : MockExchange) (c : Call) : option string :=
  match c with
  | CreateOrder symbol order_type side amount price =>
      match (create_order symbol order_type side amount price self).1 with
      | Return order => Some (o_id order)
      | Raise _ => None
      end
  | _ => None
  end.

(** The ids assigned during a run, in the order of their creation. *)
Fixpoint created_ids (self : MockExchange) (calls : list Call) : list string :=
  match calls with
  | [] => []
  | c :: calls' =>
      match created_id self c with
      | Some i => i :: created_ids (step self c) calls'
      | None => created_ids (step self c) calls'
      end
  end.

(** Each candle opens where the one before it closed. *)
Definition chained (l : list Candle) : Prop :=
  ∀ i c c', l !! i = Some c → l !! S i = Some c' → c_open c' = c_close c.

(** The series that the [j]-th round of the outer loop of
    [_generate_price_history] builds for a symbol at [price]. *)
Definition series_of (clock rnd : nat → Qc) (j : nat) (price : Qc) : list Candle :=
  candle_loop rnd (int ((clock j - Q2Qc 3600 * Q2Qc 24) * Q2Qc 1000)) 24 0
              (4 * 24 * j) (price * Q2Qc 0.95).

(** ** Sample runs *)

(** The order that the first cancellation of the scenario leaves behind. *)
Definition canceled_eth_order : Order :=
  mark_canceled
    (built_order 1000 (Q2Qc 2500.00) "ETH/USDT" "limit" "buy" (Q2Qc 1.0)
       (Some (Q2Qc 1500.0))).

(** A run with two fills, a ticker poll, two open orders and a repeated
    cancellation. *)
Definition sample_calls : list Call :=
  [ CreateOrder "BTC/USDT" "market" "buy" (Q2Qc 0.01) None;
    FetchTicker sample_rnd "ETH/USDT";
    CreateOrder "ETH/USDT" "limit" "buy" (Q2Qc 1.0) (Some (Q2Qc 1500.0));
    CreateOrder "BNB/USDT" "limit" "sell" (Q2Qc 2) (Some (Q2Qc 500));
    CancelOrder "1001" "ETH/USDT";
    CancelOrder "1001" "ETH/USDT";
    CreateOrder "ETH/USDT" "market" "sell" (Q2Qc 0.5) None ].

(** ** Further vocabulary: outcomes of calls *)

(** The exception of a result, if it is one. *)
Definition raised {A} (r : Result A) : option Exception :=
  match r with
  | Raise e => Some e
  | Return _ => None
  end.

(** The exception that a call raises on an instance, if it raises. *)
Definition call_raises (self : MockExchange) (c : Call) : option Exception :=
  match c with
  | CreateOrder symbol order_type side amount price =>
      raised (create_order symbol order_type side amount price self).1
  | CancelOrder order_id symbol => raised (cancel_order order_id symbol self).1
  | FetchOrder order_id symbol => raised (fetch_order order_id symbol self).1
  | FetchOpenOrders symbol => raised (fetch_open_orders symbol self).1
  | FetchBalance => raised (fetch_balance self).1
  | FetchTicker rnd symbol => raised (fetch_ticker rnd symbol self).1
  | FetchOrderBook rnd symbol limit => raised (fetch_order_book rnd symbol limit self).1
  | FetchOhlcv symbol timeframe limit => raised (fetch_ohlcv symbol timeframe limit self).1
  | TestConnection => raised (test_connection self).1
  end.

(** The ticker that [fetch_ticker] builds from the stored price [price]
    of the symbol. *)
Definition ticker_of (rnd : nat → Qc) (symbol : string) (price : Qc) : Ticker :=
  let spread := price * Q2Qc 0.0005 in
  let price := price * uniform (rnd 0%nat) (Q2Qc 0.9995) (Q2Qc 1.0005) in
  mkTicker symbol (price * Q2Qc 1.02) (price * Q2Qc 0.98)
    (price - spread) (uniform (rnd 1%nat) (Q2Qc 100) (Q2Qc 1000))
    (price + spread) (uniform (rnd 2%nat) (Q2Qc 100) (Q2Qc 1000))
    price (price * Q2Qc 0.98) price price (price * Q2Qc 0.99)
    (price - price * Q2Qc 0.99) (Q2Qc 1.0) price
    (uniform (rnd 3%nat) (Q2Qc 1000) (Q2Qc 10000))
    (uniform (rnd 4%nat) (Q2Qc 50000) (Q2Qc 500000)).

(** The ids in use are those handed out so far, in the order of creation. *)
Definition ids_in_use (s : MockExchange) : Prop :=
  (1000 ≤ order_counter s)%Z
  ∧ Dict.keys (orders s) = pretty <$> seqZ 1000 (order_counter s - 1000).

(** The filter that the [symbol] argument of [fetch_open_orders] puts on
    the open orders: none for [None] and for the empty string. *)
Definition wanted (symbol : option string) (order : Order) : Prop :=
  match symbol with
  | Some symbol => symbol = "" ∨ o_symbol order = symbol
  | None => True
  end.

(** The symbols that [__init__] configures, in the order of
    [self.current_prices]. *)
Definition configured_symbols : list string := Dict.keys initial_prices.

(** How the fields of a stored order hang together. *)
Record order_shape (k : string) (o : Order) : Prop := {
  shape_id : o_id o = k;
  shape_client : o_clientOrderId o = "mock-" ++ k;
  shape_symbol : o_symbol o ∈ configured_symbols;
  shape_type : o_type o ∈ ["market"; "limit"];
  shape_side : o_side o ∈ ["buy"; "sell"];
  shape_cost : o_cost o = o_amount o * o_price o;
  shape_average : o_average o = o_price o;
  shape_status :
    (o_status o = "closed" ∧ o_filled o = o_amount o ∧ o_remaining o = 0)
    ∨ (o_status o = "open" ∧ o_type o = "limit"
       ∧ o_filled o = 0 ∧ o_remaining o = o_amount o)
    ∨ (o_status o = "canceled" ∧ o_type o = "limit"
       ∧ o_filled o = 0 ∧ o_remaining o = 0)
}.

(** The symbol whose price a call moves: only [fetch_ticker] assigns to
    [self.current_prices]. *)
Definition polled (c : Call) : option string :=
  match c with
  | FetchTicker _ symbol => Some symbol
  | _ => None
  end.

(** What the random factors of [_generate_price_history] allow for one
    candle: [low] and [high] enclose [open] and [close], the close lies
    within 2% of the open, and the volume between 100 and 1000. *)
Definition candle_sane (c : Candle) : Prop :=
  0 < c_low c
  ∧ c_low c ≤ c_open c ∧ c_low c ≤ c_close c
  ∧ c_open c ≤ c_high c ∧ c_close c ≤ c_high c
  ∧ c_open c * Q2Qc 0.98 ≤ c_close c ∧ c_close c ≤ c_open c * Q2Qc 1.02
  ∧ Q2Qc 100 ≤ c_volume c ∧ c_volume c ≤ Q2Qc 1000.

(** Every reading of [random.random()] lies between 0 and 1. *)
Definition unit_readings (rnd : nat → Qc) : Prop := ∀ k, 0 ≤ rnd k ∧ rnd k ≤ 1.

(** How often a run polls the ticker of a symbol. *)
Definition polls (symbol : string) (calls : list Call) : nat :=
  length (filter (λ c, polled c = Some symbol) calls).

(** * The client in front of the adapter ([mock_client.py])

    [MockClient] holds one [MockExchange] in [self.exchange], and nothing
    else: its methods run in the monad [M] of the adapter.

    ** String methods

    A string is a sequence of 8-bit characters.  The methods below are
    those of Python on ASCII strings (every character below 128), where
    [len] counts characters and [isalpha] knows the 52 letters only;
    [is_ascii] names this domain. *)

Definition chars (s : string) : list ascii := list_ascii_of_string s.
Definition of_chars (l : list ascii) : string := string_of_list_ascii l.

Definition is_ascii (s : string) : Prop :=
  Forall (λ c, nat_of_ascii c < 128)%nat (chars s).

(** [c in s], for a single character [c]. *)
Definition contains_char (c : ascii) (s : string) : bool :=
  bool_decide (c ∈ chars s).

(** [s.endswith(suffix)]. *)
Definition endswith (s suffix : string) : bool :=
  bool_decide (chars suffix `suffix_of` chars s).

(** [s[:-n]] and [s[-n:]], for [n >= 1]. *)
Definition slice_to_last (n : nat) (s : string) : string :=
  of_chars (take (length (chars s) - n) (chars s)).
Definition slice_from_last (n : nat) (s : string) : string :=
  of_chars (drop (length (chars s) - n) (chars s)).

(** [s.isalpha()]: at least one character, and letters only. *)
Definition is_letter (c : ascii) : bool :=
  let n := nat_of_ascii c in
  ((65 <=? n) && (n <=? 90) || (97 <=? n) && (n <=? 122))%nat.
Definition isalpha (s : string) : bool :=
  negb (bool_decide (chars s = [])) && forallb is_letter (chars s).

(** [s.replace(c, '')], for a single character [c]. *)
Definition remove_char (c : ascii) (s : string) : string :=
  of_chars (filter (λ x, x ≠ c) (chars s)).

Module MockClient.

Definition quote_currencies : list string :=
  ["USDT"; "BUSD"; "USDC"; "BTC"; "ETH"; "BNB"].

(** [for quote in quote_currencies: if symbol.endswith(quote): return ...];
    [None] when the loop ends without a [return]. *)
Fixpoint convert_loop (symbol : string) (quotes : list string) : option string :=
  match quotes with
  | [] => None
  | quote :: quotes' =>
      if endswith symbol quote then
        let base := slice_to_last (String.length quote) symbol in
        Some (base ++ "/" ++ quote)
      else convert_loop symbol quotes'
  end.

Definition _convert_symbol (symbol : string) : string :=
  if contains_char "/" symbol then symbol
  else
    match convert_loop symbol quote_currencies with
    | Some converted => converted
    | None =>
        if bool_decide (4 < String.length symbol)%nat
           && isalpha (slice_from_last 4 symbol)
        then slice_to_last 4 symbol ++ "/" ++ slice_from_last 4 symbol
        else symbol
    end.

(** What the interpreter can raise inside [get_account_balance]: an
    exception of the adapter, or the [TypeError] of subscripting a float. *)
Inductive PyException :=
  | Adapter (e : Exception)
  | TypeError (msg : string).

(** [str(e)]; a [KeyError] shows its key between quotes. *)
Definition exception_str (e : PyException) : string :=
  match e with
  | Adapter (MockExchangeError msg) => msg
  | Adapter (ValueError msg) => msg
  | Adapter (KeyError key) => "'" ++ key ++ "'"
  | TypeError msg => msg
  end.

(** One entry of ['assets'] and the dictionary that
    [get_account_balance] builds. *)
Record Asset := mkAsset {
  asset : string;
  walletBalance : string;
  unrealizedProfit : string
}.

Record Account := mkAccount {
  accountType : string;
  maxOrders : Z;
  maxAlgoOrders : Z;
  assets : list Asset
}.

(** [data['total']] for a float [data]: a float has no [__getitem__], so
    no value comes out. *)
Definition float_getitem (data : Qc) (key : string) : PyException + Empty_set :=
  inl (TypeError "'float' object is not subscriptable").

(** The list comprehension over [balance['total'].items()], whose values
    are the floats stored by [fetch_balance]. *)
Fixpoint asset_entries (items : list (string * Qc)) : PyException + list Asset :=
  match items with
  | [] => inr []
  | (asset, data) :: items' =>
      match float_getitem data "total" with
      | inl e => inl e
      | inr total =>
          match asset_entries items' with
          | inl e => inl e
          | inr entries =>
              inr (mkAsset asset (Empty_set_rect (λ _, string) total) "0" :: entries)
          end
      end
  end.

(** [except Exception as e: raise MockExchangeError(f"Failed to fetch
    balance: {str(e)}")]. *)
Definition get_account_balance : M Account :=
  λ self,
    let failed e :=
      Raise (MockExchangeError ("Failed to fetch balance: " ++ exception_str e)) in
    match fetch_balance self with
    | (Raise e, self') => (failed (Adapter e), self')
    | (Return balance, self') =>
        match asset_entries (bd_total balance) with
        | inl e => (failed e, self')
        | inr entries => (Return (mkAccount "NORMAL" 1000 200 entries), self')
        end
    end.

(** The log line reads [balance['assets'][0]], an [IndexError] on an
    empty list; [except Exception] turns every failure into [False]. *)
Definition test_connection : M bool :=
  λ self,
    match get_account_balance self with
    | (Return balance, self') =>
        match assets balance with
        | [] => (Return false, self')
        | _ :: _ => (Return true, self')
        end
    | (Raise _, self') => (Return false, self')
    end.

End MockClient.

(** * Properties *)

(** ** Rational arithmetic *)

(** Moves an order relation between rationals to [Q], where [lra] works. *)
Ltac qc_unfold :=
  unfold Qcmax, Qcmin, uniform, float, Qcle, Qclt, Qcminus, Qcplus, Qcmult, Qcopp in *;
  cbn [this Q2Qc] in *;
  rewrite ?Qred_correct in *.

Ltac qc_lra := intros; qc_unfold; lra.

Lemma Qc_eq_iff (x y : Qc) : x = y <-> (x == y)%Q.
Proof. split; [intros ->; reflexivity | apply Qc_is_canon]. Qed.

Lemma Some_Qc_eq (x y : Qc) : (x == y)%Q → Some x = Some y.
Proof. intros H. f_equal. by apply Qc_is_canon. Qed.

(** Equality of two closed rationals, bare or under [Some]. *)
Ltac qc_eq :=
  first [apply Qc_is_canon | apply Some_Qc_eq]; vm_compute; reflexivity.

(** ** Dictionary laws *)

Module DictFacts.
Import Dict.
Section dict_facts.
Context {V : Type}.
Implicit Types (d : list (string * V)) (k : string) (v : V).

Lemma get_set_eq k v d : get k (set k v d) = Some v.
Proof.
  induction d as [|[k' v'] d IH]; simpl.
  - by rewrite decide_True.
  - destruct (decide (k = k')) as [->|Hne]; simpl.
    + by rewrite decide_True.
    + by rewrite decide_False.
Qed.

Lemma get_set_ne k k' v d : k ≠ k' → get k' (set k v d) = get k' d.
Proof.
  intros Hne. induction d as [|[k0 v0] d IH]; simpl.
  - by rewrite decide_False.
  - destruct (decide (k = k0)) as [->|Hk]; simpl.
    + by rewrite !decide_False.
    + by rewrite IH.
Qed.

Lemma get_set k k' v d :
  get k' (set k v d) = if decide (k = k') then Some v else get k' d.
Proof.
  destruct (decide (k = k')) as [->|Hne];
    [apply get_set_eq | by apply get_set_ne].
Qed.

Lemma set_set k v v' d : set k v (set k v' d) = set k v d.
Proof.
  induction d as [|[k0 v0] d IH]; simpl.
  - by rewrite decide_True.
  - destruct (decide (k = k0)) as [->|Hk]; simpl.
    + by rewrite decide_True.
    + by rewrite decide_False, IH.
Qed.

Lemma contains_true k d : contains k d = true ↔ is_Some (get k d).
Proof.
  unfold contains. destruct (get k d); split; intros H; try done; eauto.
Qed.

Lemma contains_false k d : contains k d = false ↔ get k d = None.
Proof. unfold contains. by destruct (get k d). Qed.

(** Overwriting an existing key leaves the key list as it was. *)
Lemma keys_set_present k v d :
  is_Some (get k d) → keys (set k v d) = keys d.
Proof.
  unfold keys. induction d as [|[k' v'] d IH]; cbn [get set].
  - by intros [? ?].
  - destruct (decide (k = k')) as [->|Hne]; [done|].
    intros H. rewrite !fmap_cons. f_equal. by apply IH.
Qed.

Lemma get_elem_of k v d : get k d = Some v → (k, v) ∈ d.
Proof.
  induction d as [|[k' v'] d IH]; simpl; [done|].
  destruct (decide (k = k')) as [->|Hne].
  - intros [= ->]. apply list_elem_of_here.
  - intros H. apply list_elem_of_further. by apply IH.
Qed.

Lemma get_None_keys k d : get k d = None ↔ k ∉ keys d.
Proof.
  unfold keys. induction d as [|[k' v'] d IH]; cbn [get].
  - split; [intros _; apply not_elem_of_nil | done].
  - rewrite fmap_cons, not_elem_of_cons. cbn [fst].
    destruct (decide (k = k')) as [->|Hne].
    + split; [done | by intros [? _]].
    + rewrite IH. tauto.
Qed.

Lemma get_Some_keys k d : is_Some (get k d) ↔ k ∈ keys d.
Proof.
  rewrite <- not_eq_None_Some, get_None_keys.
  destruct (decide (k ∈ keys d)); tauto.
Qed.

(** Writing back the value that is already there changes nothing. *)
Lemma set_id k v d : get k d = Some v → set k v d = d.
Proof.
  induction d as [|[k' v'] d IH]; cbn [get set]; [done|].
  destruct (decide (k = k')) as [->|Hne].
  - by intros [= ->].
  - intros H. by rewrite IH.
Qed.

(** The entries after an assignment: the new one, or old ones. *)
Lemma elem_of_set k v d kv : kv ∈ set k v d → kv = (k, v) ∨ kv ∈ d.
Proof.
  induction d as [|[k' v'] d IH]; cbn [set].
  - rewrite list_elem_of_singleton. tauto.
  - destruct (decide (k = k')) as [->|Hne]; rewrite !elem_of_cons; intuition.
Qed.
End dict_facts.
End DictFacts.

(** ** Running monadic code *)

Lemma bind_run {A B} (m : M A) (f : A → M B) self :
  (m ≫= f) self =
    match m self with
    | (Return a, self') => f a self'
    | (Raise e, self') => (Raise e, self')
    end.
Proof. reflexivity. Qed.

Lemma subscript_Some {V} (d : dict V) k v self :
  Dict.get k d = Some v → subscript d k self = (Return v, self).
Proof. unfold subscript. by intros ->. Qed.

Lemma subscript_None {V} (d : dict V) k self :
  Dict.get k d = None → subscript d k self = (Raise (KeyError k), self).
Proof. unfold subscript. by intros ->. Qed.

Lemma update_balance_Some asset f b self :
  Dict.get asset (balances self) = Some b →
  update_balance asset f self
  = (Return tt, set_balances (Dict.set asset (f b)) self).
Proof.
  intros Hb. unfold update_balance. rewrite bind_run. cbn [read].
  rewrite bind_run, (subscript_Some _ _ _ _ Hb). reflexivity.
Qed.

Lemma update_balance_None asset f self :
  Dict.get asset (balances self) = None →
  update_balance asset f self = (Raise (KeyError asset), self).
Proof.
  intros Hb. unfold update_balance. rewrite bind_run. cbn [read].
  rewrite bind_run, (subscript_None _ _ _ Hb). reflexivity.
Qed.

(** Two augmented assignments on the same balance entry. *)
Lemma update_balance_twice asset f g b self :
  Dict.get asset (balances self) = Some b →
  (update_balance asset f;; update_balance asset g) self
  = (Return tt, set_balances (Dict.set asset (g (f b))) self).
Proof.
  intros Hb. rewrite bind_run, (update_balance_Some _ _ _ _ Hb).
  rewrite (update_balance_Some _ _ (f b)) by apply DictFacts.get_set_eq.
  destruct self. unfold set_balances. cbn. by rewrite DictFacts.set_set.
Qed.

(** Unfolds the monad and the record updates. *)
Ltac mrun :=
  cbv beta iota zeta delta
    [mbind M_bind mret M_ret read modify raise raise_if subscript update_balance
     unpack_pair set_balances set_orders set_order_counter set_current_prices
     balances orders order_counter current_prices price_history Dict.contains negb].

(** Turn a decided hypothesis into the value of its [bool_decide]. *)
Ltac holds H :=
  let H' := fresh in
  pose proof (bool_decide_eq_true_2 _ H) as H'; clear H; rename H' into H.
Ltac fails H :=
  let H' := fresh in
  pose proof (bool_decide_eq_false_2 _ H) as H'; clear H; rename H' into H.

(** Decides a closed proposition by evaluation. *)
Ltac decided := apply (bool_decide_unpack _); vm_compute; exact I.

(** Runs a method along the path that the hypotheses select. *)
Ltac mrun_with_hyps :=
  repeat first
    [ progress mrun
    | match goal with
      | H : Dict.get _ _ = _ |- _ => rewrite H
      | H : split _ _ = _ |- _ => rewrite H
      | H : bool_decide _ = _ |- _ => rewrite H
      end
    | rewrite DictFacts.get_set_eq
    | rewrite DictFacts.set_set ].

(** ** What [create_order] computes *)

Section create_order_facts.
Variable self : MockExchange.
Variables symbol order_type side : string.
Variable amount : Qc.
Variable price : option Qc.

Let call := create_order symbol order_type side amount price self.

(** Every path of [create_order] that returns. *)
Lemma create_order_returns current base quote b :
  Dict.get symbol (current_prices self) = Some current →
  order_type ∈ ["market"; "limit"] →
  side ∈ ["buy"; "sell"] →
  split "/" symbol = [base; quote] →
  let order_price := execution_price current order_type side price in
  let asset := reserve_asset side base quote in
  let needed := reserve_amount side amount order_price in
  Dict.get asset (balances self) = Some b →
  ¬ free b < needed →
  call =
    (Return (built_order (order_counter self) current symbol order_type side amount price),
     mkExchange (Dict.set asset (lock needed b) (balances self))
                (Dict.set (pretty (order_counter self))
                   (built_order (order_counter self) current symbol order_type side
                      amount price)
                   (orders self))
                (order_counter self + 1) (current_prices self) (price_history self)).
Proof.
  intros Hcur Htype Hside Hsplit order_price asset needed Hb Hfree.
  subst call order_price asset needed.
  holds Htype. holds Hside.
  fails Hfree.
  unfold create_order, built_order, execution_price, fills_at_once, slippage,
    reserve_asset, reserve_amount, lock in *.
  destruct self as [bal ords cnt prices hist].
  cbn [balances orders order_counter current_prices price_history] in *.
  destruct (bool_decide (order_type = "market")), price, (bool_decide (side = "buy"));
    mrun_with_hyps; reflexivity.
Qed.

(** The failing paths, in the order of the source.  Each one leaves the
    instance untouched. *)
Lemma create_order_unknown_symbol :
  Dict.get symbol (current_prices self) = None →
  call = (Raise (MockExchangeError ("Unknown symbol: " ++ symbol)), self).
Proof.
  intros Hcur. subst call. unfold create_order. destruct self.
  cbn [current_prices] in *. mrun_with_hyps. reflexivity.
Qed.

Lemma create_order_unknown_type current :
  Dict.get symbol (current_prices self) = Some current →
  order_type ∉ ["market"; "limit"] →
  call = (Raise (MockExchangeError ("Unknown order type: " ++ order_type)), self).
Proof.
  intros Hcur Htype. fails Htype.
  subst call. unfold create_order. destruct self.
  cbn [current_prices] in *. mrun_with_hyps. reflexivity.
Qed.

Lemma create_order_unknown_side current :
  Dict.get symbol (current_prices self) = Some current →
  order_type ∈ ["market"; "limit"] →
  side ∉ ["buy"; "sell"] →
  call = (Raise (MockExchangeError ("Unknown side: " ++ side)), self).
Proof.
  intros Hcur Htype Hside.
  holds Htype. fails Hside.
  subst call. unfold create_order. destruct self.
  cbn [current_prices] in *. mrun_with_hyps. reflexivity.
Qed.

Lemma create_order_bad_split current :
  Dict.get symbol (current_prices self) = Some current →
  order_type ∈ ["market"; "limit"] →
  side ∈ ["buy"; "sell"] →
  (∀ base quote, split "/" symbol ≠ [base; quote]) →
  call = (Raise (ValueError "wrong number of values to unpack"), self).
Proof.
  intros Hcur Htype Hside Hsplit.
  holds Htype. holds Hside.
  subst call. unfold create_order. destruct self.
  cbn [current_prices] in *.
  destruct (split "/" symbol) as [|base [|quote [|]]] eqn:Hs;
    try (by destruct (Hsplit base quote));
    destruct (bool_decide (order_type = "market")), price;
    mrun_with_hyps; reflexivity.
Qed.

Lemma create_order_missing_balance current base quote :
  Dict.get symbol (current_prices self) = Some current →
  order_type ∈ ["market"; "limit"] →
  side ∈ ["buy"; "sell"] →
  split "/" symbol = [base; quote] →
  Dict.get (reserve_asset side base quote) (balances self) = None →
  call = (Raise (KeyError (reserve_asset side base quote)), self).
Proof.
  intros Hcur Htype Hside Hsplit Hb.
  holds Htype. holds Hside.
  subst call. unfold create_order, reserve_asset in *. destruct self.
  cbn [current_prices balances] in *.
  destruct (bool_decide (order_type = "market")), price, (bool_decide (side = "buy"));
    mrun_with_hyps; reflexivity.
Qed.

Lemma create_order_insufficient current base quote b :
  Dict.get symbol (current_prices self) = Some current →
  order_type ∈ ["market"; "limit"] →
  side ∈ ["buy"; "sell"] →
  split "/" symbol = [base; quote] →
  let order_price := execution_price current order_type side price in
  let asset := reserve_asset side base quote in
  Dict.get asset (balances self) = Some b →
  free b < reserve_amount side amount order_price →
  call = (Raise (MockExchangeError ("Insufficient " ++ asset ++ " balance")), self).
Proof.
  intros Hcur Htype Hside Hsplit order_price asset Hb Hfree.
  subst order_price asset.
  holds Htype. holds Hside.
  holds Hfree.
  subst call.
  unfold create_order, execution_price, slippage, reserve_asset, reserve_amount in *.
  destruct self. cbn [current_prices balances] in *.
  destruct (bool_decide (order_type = "market")), price, (bool_decide (side = "buy"));
    mrun_with_hyps; reflexivity.
Qed.
End create_order_facts.

(** ** What [cancel_order] computes *)

Section cancel_order_facts.
Variable self : MockExchange.
Variables order_id symbol : string.

Let call := cancel_order order_id symbol self.

(** The path of [cancel_order] that returns. *)
Lemma cancel_order_returns order base quote b :
  Dict.get order_id (orders self) = Some order →
  o_status order ≠ "closed" →
  split "/" (o_symbol order) = [base; quote] →
  let asset := reserve_asset (o_side order) base quote in
  Dict.get asset (balances self) = Some b →
  call =
    (Return (mark_canceled order),
     mkExchange (Dict.set asset (unlock (release_amount order) b) (balances self))
                (Dict.set order_id (mark_canceled order) (orders self))
                (order_counter self) (current_prices self) (price_history self)).
Proof.
  intros Hord Hstatus Hsplit asset Hb. subst asset call.
  fails Hstatus.
  unfold cancel_order, reserve_asset, release_amount, unlock in *.
  destruct self as [bal ords cnt prices hist].
  cbn [balances orders] in *.
  destruct (bool_decide (o_side order = "buy")) eqn:Hbuy; mrun_with_hyps; reflexivity.
Qed.

Lemma cancel_order_not_found :
  Dict.get order_id (orders self) = None →
  call = (Raise (MockExchangeError ("Order not found: " ++ order_id)), self).
Proof.
  intros Hord. subst call. unfold cancel_order. destruct self.
  cbn [orders] in *. mrun_with_hyps. reflexivity.
Qed.

Lemma cancel_order_closed order :
  Dict.get order_id (orders self) = Some order →
  o_status order = "closed" →
  call = (Raise (MockExchangeError ("Cannot cancel closed order: " ++ order_id)), self).
Proof.
  intros Hord Hstatus. holds Hstatus. subst call. unfold cancel_order.
  destruct self. cbn [orders] in *. mrun_with_hyps. reflexivity.
Qed.

Lemma cancel_order_bad_split order :
  Dict.get order_id (orders self) = Some order →
  o_status order ≠ "closed" →
  (∀ base quote, split "/" (o_symbol order) ≠ [base; quote]) →
  call = (Raise (ValueError "wrong number of values to unpack"), self).
Proof.
  intros Hord Hstatus Hsplit. fails Hstatus. subst call. unfold cancel_order.
  destruct self. cbn [orders] in *.
  destruct (split "/" (o_symbol order)) as [|base [|quote [|]]] eqn:Hs;
    try (by destruct (Hsplit base quote));
    mrun_with_hyps; reflexivity.
Qed.

Lemma cancel_order_missing_balance order base quote :
  Dict.get order_id (orders self) = Some order →
  o_status order ≠ "closed" →
  split "/" (o_symbol order) = [base; quote] →
  Dict.get (reserve_asset (o_side order) base quote) (balances self) = None →
  call = (Raise (KeyError (reserve_asset (o_side order) base quote)), self).
Proof.
  intros Hord Hstatus Hsplit Hb. fails Hstatus. subst call.
  unfold cancel_order, reserve_asset in *.
  destruct self. cbn [orders balances] in *.
  destruct (bool_decide (o_side order = "buy")) eqn:Hbuy; mrun_with_hyps; reflexivity.
Qed.
End cancel_order_facts.

(** ** Case analysis of the two mutating methods *)

(** [create_order] either raises and leaves the instance alone, or
    locks the reservation, stores the order and advances the counter. *)
Lemma create_order_cases self symbol order_type side amount price :
  (∃ e, create_order symbol order_type side amount price self = (Raise e, self))
  ∨ (∃ current base quote b,
       Dict.get symbol (current_prices self) = Some current
       ∧ order_type ∈ ["market"; "limit"]
       ∧ side ∈ ["buy"; "sell"]
       ∧ split "/" symbol = [base; quote]
       ∧ Dict.get (reserve_asset side base quote) (balances self) = Some b
       ∧ ¬ free b < reserve_amount side amount
                     (execution_price current order_type side price)
       ∧ create_order symbol order_type side amount price self =
           (Return (built_order (order_counter self) current symbol order_type side
                      amount price),
            mkExchange
              (Dict.set (reserve_asset side base quote)
                 (lock (reserve_amount side amount
                          (execution_price current order_type side price)) b)
                 (balances self))
              (Dict.set (pretty (order_counter self))
                 (built_order (order_counter self) current symbol order_type side
                    amount price)
                 (orders self))
              (order_counter self + 1) (current_prices self) (price_history self))).
Proof.
  destruct (Dict.get symbol (current_prices self)) as [current|] eqn:Hcur;
    [|left; eexists; by apply create_order_unknown_symbol].
  destruct (decide (order_type ∈ ["market"; "limit"])) as [Htype|Htype];
    [|left; eexists; by eapply create_order_unknown_type].
  destruct (decide (side ∈ ["buy"; "sell"])) as [Hside|Hside];
    [|left; eexists; by eapply create_order_unknown_side].
  destruct (split "/" symbol) as [|base [|quote [|]]] eqn:Hsplit;
    try (left; eexists; eapply create_order_bad_split; eauto; congruence).
  destruct (Dict.get (reserve_asset side base quote) (balances self)) as [b|] eqn:Hb;
    [|left; eexists; by eapply create_order_missing_balance].
  destruct (decide (free b < reserve_amount side amount
                      (execution_price current order_type side price))) as [Hlt|Hge].
  - left; eexists. by eapply create_order_insufficient.
  - right. exists current, base, quote, b. repeat split; try done.
    by apply create_order_returns.
Qed.

(** [cancel_order] either raises and leaves the instance alone, or hands
    the remaining reservation back and marks the order. *)
Lemma cancel_order_cases self order_id symbol :
  (∃ e, cancel_order order_id symbol self = (Raise e, self))
  ∨ (∃ order base quote b,
       Dict.get order_id (orders self) = Some order
       ∧ o_status order ≠ "closed"
       ∧ split "/" (o_symbol order) = [base; quote]
       ∧ Dict.get (reserve_asset (o_side order) base quote) (balances self) = Some b
       ∧ cancel_order order_id symbol self =
           (Return (mark_canceled order),
            mkExchange
              (Dict.set (reserve_asset (o_side order) base quote)
                 (unlock (release_amount order) b) (balances self))
              (Dict.set order_id (mark_canceled order) (orders self))
              (order_counter self) (current_prices self) (price_history self))).
Proof.
  destruct (Dict.get order_id (orders self)) as [order|] eqn:Hord;
    [|left; eexists; by apply cancel_order_not_found].
  destruct (decide (o_status order = "closed")) as [Hst|Hst];
    [left; eexists; by eapply cancel_order_closed|].
  destruct (split "/" (o_symbol order)) as [|base [|quote [|]]] eqn:Hsplit;
    try (left; eexists; eapply cancel_order_bad_split; eauto; congruence).
  destruct (Dict.get (reserve_asset (o_side order) base quote) (balances self))
    as [b|] eqn:Hb; [|left; eexists; by eapply cancel_order_missing_balance].
  right. exists order, base, quote, b. repeat split; try done.
  by apply cancel_order_returns.
Qed.

(** ** The methods that only read *)

Lemma fetch_balance_pure self : (fetch_balance self).2 = self.
Proof. reflexivity. Qed.

Lemma test_connection_pure self : test_connection self = (Return true, self).
Proof. reflexivity. Qed.

Lemma fetch_order_pure order_id symbol self :
  (fetch_order order_id symbol self).2 = self.
Proof.
  destruct self as [bal ords cnt prices hist].
  destruct (Dict.get order_id ords) eqn:Hord;
    unfold fetch_order; mrun_with_hyps; reflexivity.
Qed.

Lemma fetch_open_orders_pure symbol self :
  (fetch_open_orders symbol self).2 = self.
Proof. reflexivity. Qed.

Lemma fetch_order_book_pure rnd symbol limit self :
  (fetch_order_book rnd symbol limit self).2 = self.
Proof.
  destruct self as [bal ords cnt prices hist].
  destruct (Dict.get symbol prices) eqn:Hp;
    unfold fetch_order_book; mrun_with_hyps; reflexivity.
Qed.

Lemma fetch_ohlcv_pure symbol timeframe limit self :
  (fetch_ohlcv symbol timeframe limit self).2 = self.
Proof.
  destruct self as [bal ords cnt prices hist].
  destruct (Dict.get symbol prices) eqn:Hp;
    unfold fetch_ohlcv; mrun_with_hyps; reflexivity.
Qed.

(** [fetch_ticker] moves the price of its symbol and nothing else. *)
Lemma fetch_ticker_cases rnd symbol self :
  (fetch_ticker rnd symbol self).2 = self
  ∨ (∃ price,
       Dict.get symbol (current_prices self) = Some price
       ∧ (fetch_ticker rnd symbol self).2 =
           set_current_prices
             (Dict.set symbol
                (price * uniform (rnd 0%nat) (Q2Qc 0.9995) (Q2Qc 1.0005)))
             self).
Proof.
  destruct self as [bal ords cnt prices hist]. cbn [current_prices].
  destruct (Dict.get symbol prices) as [price|] eqn:Hp.
  - right. exists price. split; [done|].
    unfold fetch_ticker. mrun_with_hyps. reflexivity.
  - left. unfold fetch_ticker. mrun_with_hyps. reflexivity.
Qed.

(** ** One step of a run *)

Lemma step_effect self c : Effect self c (step self c).
Proof.
  destruct c as [symbol order_type side amount price | order_id symbol | | | | | | |];
    cbn [step].
  - destruct (create_order_cases self symbol order_type side amount price)
      as [[e ->] | (current & base & quote & b & ? & ? & ? & ? & ? & ? & ->)];
      cbn [snd]; [constructor | by eapply effect_create].
  - destruct (cancel_order_cases self order_id symbol)
      as [[e ->] | (order & base & quote & b & ? & ? & ? & ? & ->)];
      cbn [snd]; [constructor | by eapply effect_cancel].
  - rewrite fetch_order_pure. constructor.
  - rewrite fetch_open_orders_pure. constructor.
  - rewrite fetch_balance_pure. constructor.
  - destruct (fetch_ticker_cases rnd symbol self) as [-> | (p & ? & ->)];
      [constructor | by eapply effect_ticker].
  - rewrite fetch_order_book_pure. constructor.
  - rewrite fetch_ohlcv_pure. constructor.
  - rewrite test_connection_pure. constructor.
Qed.

(** Induction over a run, from the last call backwards. *)
Lemma run_snoc self calls c : run self (calls ++ [c])%list = step (run self calls) c.
Proof. unfold run. by rewrite foldl_app. Qed.

Lemma run_ind (P : MockExchange → Prop) self :
  P self →
  (∀ s c s', P s → Effect s c s' → P s') →
  ∀ calls, P (run self calls).
Proof.
  intros Hinit Hstep calls. induction calls as [|c calls IH] using rev_ind.
  - exact Hinit.
  - rewrite run_snoc. eapply Hstep; [exact IH | apply step_effect].
Qed.

(** The same, for runs whose calls all satisfy [Q]. *)
Lemma run_ind_Forall (Q : Call → Prop) (P : MockExchange → Prop) self :
  P self →
  (∀ s c s', Q c → P s → Effect s c s' → P s') →
  ∀ calls, Forall Q calls → P (run self calls).
Proof.
  intros Hinit Hstep calls. induction calls as [|c calls IH] using rev_ind.
  - intros _. exact Hinit.
  - intros [Hcalls Hc]%Forall_app. apply Forall_cons_1 in Hc as [Hc _].
    rewrite run_snoc.
    eapply Hstep; [exact Hc | by apply IH | apply step_effect].
Qed.

(** ** What no run changes *)

Lemma effect_frozen init s c s' : frozen init s → Effect s c s' → frozen init s'.
Proof.
  intros [Hb Hp Hh] Heff.
  destruct Heff as [| ????????? Hcur ??? Hbal ? | ?????? ??? Hbal | ??? Hcur];
    split; cbn [balances current_prices price_history set_current_prices]; try done.
  - rewrite DictFacts.keys_set_present; [done | by eexists].
  - rewrite DictFacts.keys_set_present; [done | by eexists].
  - rewrite DictFacts.keys_set_present; [done | by eexists].
Qed.

Lemma run_frozen init calls : frozen init (run init calls).
Proof.
  apply run_ind; [by split | intros s c s'; apply effect_frozen].
Qed.

(** A symbol is known in a run exactly when [__init__] configured it. *)
Lemma run_known_symbol clock rnd calls symbol :
  is_Some (Dict.get symbol (current_prices (run (__init__ clock rnd) calls)))
  ↔ symbol ∈ ["BTC/USDT"; "ETH/USDT"; "BNB/USDT"; "ADA/USDT"; "SOL/USDT"].
Proof.
  rewrite DictFacts.get_Some_keys, (frozen_prices _ _ (run_frozen _ calls)). reflexivity.
Qed.

(** An asset has a balance entry in a run exactly when it was seeded. *)
Lemma run_known_asset clock rnd calls asset :
  is_Some (Dict.get asset (balances (run (__init__ clock rnd) calls)))
  ↔ asset ∈ ["USDT"; "BTC"; "ETH"; "BNB"].
Proof.
  rewrite DictFacts.get_Some_keys, (frozen_balances _ _ (run_frozen _ calls)). reflexivity.
Qed.

(** ** Market orders *)

Lemma slippage_buy : slippage "buy" = Q2Qc 1.001.
Proof. reflexivity. Qed.
Lemma slippage_sell : slippage "sell" = Q2Qc 0.999.
Proof. reflexivity. Qed.
Lemma reserve_asset_buy base quote : reserve_asset "buy" base quote = quote.
Proof. reflexivity. Qed.
Lemma reserve_asset_sell base quote : reserve_asset "sell" base quote = base.
Proof. reflexivity. Qed.
Lemma reserve_amount_buy amount order_price :
  reserve_amount "buy" amount order_price = amount * order_price.
Proof. reflexivity. Qed.
Lemma reserve_amount_sell amount order_price :
  reserve_amount "sell" amount order_price = amount.
Proof. reflexivity. Qed.
Lemma execution_price_market current side price :
  execution_price current "market" side price = current * slippage side.
Proof. reflexivity. Qed.
Lemma fills_at_once_market price : fills_at_once "market" price = true.
Proof. reflexivity. Qed.
Lemma execution_price_None current order_type side :
  execution_price current order_type side None = current * slippage side.
Proof. unfold execution_price. by destruct (bool_decide _). Qed.
Lemma fills_at_once_None order_type : fills_at_once order_type None = true.
Proof. unfold fills_at_once. by destruct (bool_decide _). Qed.
Lemma execution_price_limit current side price :
  execution_price current "limit" side (Some price) = price.
Proof. reflexivity. Qed.
Lemma fills_at_once_limit price : fills_at_once "limit" (Some price) = false.
Proof. reflexivity. Qed.

Lemma Qcminus_diag (x : Qc) : x - x = 0.
Proof. ring. Qed.

(** C1 (as the code has it).  A market buy of [amount] on a known symbol
    whose quote balance covers [amount * p], with [p] the current price
    times 1.001, returns an order at price [p] with status [closed],
    [filled = amount] and [remaining = 0]; it moves exactly [amount * p]
    of the quote asset from [free] to [used] and changes nothing else: no
    total moves, so the base asset is not credited. *)
Theorem market_buy_locks_quote self symbol amount price current base quote b :
  Dict.get symbol (current_prices self) = Some current →
  split "/" symbol = [base; quote] →
  Dict.get quote (balances self) = Some b →
  ¬ free b < amount * (current * Q2Qc 1.001) →
  ∃ order self',
    create_order symbol "market" "buy" amount price self = (Return order, self')
    ∧ o_price order = current * Q2Qc 1.001
    ∧ o_status order = "closed"
    ∧ o_filled order = amount
    ∧ o_remaining order = 0
    ∧ Dict.get quote (balances self')
      = Some (mkBalance (free b - amount * (current * Q2Qc 1.001))
                        (used b + amount * (current * Q2Qc 1.001)) (total b))
    ∧ (∀ asset, asset ≠ quote →
         Dict.get asset (balances self') = Dict.get asset (balances self))
    ∧ (∀ asset, total_of asset self' = total_of asset self).
Proof.
  intros Hcur Hsplit Hb Hfree.
  eexists _, _. split.
  { eapply create_order_returns; eauto;
      [apply list_elem_of_here | apply list_elem_of_here]. }
  cbn [balances built_order o_price o_status o_filled o_remaining].
  rewrite execution_price_market, fills_at_once_market, slippage_buy,
    reserve_asset_buy.
  change (reserve_amount "buy" amount (current * Q2Qc 1.001))
    with (amount * (current * Q2Qc 1.001)).
  split_and!; try done.
  - apply Qcminus_diag.
  - by rewrite DictFacts.get_set_eq.
  - intros asset Hne. by rewrite DictFacts.get_set_ne.
  - intros asset. unfold total_of. cbn [balances].
    destruct (decide (quote = asset)) as [<-|Hne].
    + by rewrite DictFacts.get_set_eq, Hb.
    + by rewrite DictFacts.get_set_ne.
Qed.

Lemma market_buy_locks_quote_witness :
  ∃ order self',
    create_order "BTC/USDT" "market" "buy" (Q2Qc 0.01) None seed = (Return order, self')
    ∧ o_price order = Q2Qc 45000.00 * Q2Qc 1.001
    ∧ o_status order = "closed"
    ∧ o_remaining order = 0
    ∧ total_of "BTC" self' = total_of "BTC" seed.
Proof.
  destruct (market_buy_locks_quote seed "BTC/USDT" (Q2Qc 0.01) None (Q2Qc 45000.00)
              "BTC" "USDT" (mkBalance (Q2Qc 10000.00) (Q2Qc 0.00) (Q2Qc 10000.00)))
    as (order & self' & Hrun & Hprice & Hstatus & _ & Hrem & _ & _ & Htotal).
  - reflexivity.
  - reflexivity.
  - reflexivity.
  - vm_compute. discriminate.
  - exists order, self'.
    split_and!; [exact Hrun | exact Hprice | exact Hstatus | exact Hrem | apply Htotal].
Defined.

(** The seed scenario of C1 as the code runs it: the execution price is
    [45000 * 1.001], which lies above 45040 (it is not 45004.5),
    [0.01 * (45000 * 1.001)] USDT leave [free], and the BTC total stays
    0.05 (it does not become 0.06). *)
Lemma market_buy_seed_counterexample :
  ∃ order self',
    create_order "BTC/USDT" "market" "buy" (Q2Qc 0.01) None seed = (Return order, self')
    ∧ o_price order = Q2Qc 45000.00 * Q2Qc 1.001
    ∧ Q2Qc 45040 < o_price order
    ∧ o_price order ≠ Q2Qc 45004.5
    ∧ free <$> Dict.get "USDT" (balances self')
      = Some (Q2Qc 10000.00 - Q2Qc 0.01 * (Q2Qc 45000.00 * Q2Qc 1.001))
    ∧ total_of "BTC" self' = Some (Q2Qc 0.05)
    ∧ total_of "BTC" self' ≠ Some (Q2Qc 0.06).
Proof.
  eexists _, _. split; [vm_compute; reflexivity|].
  split_and!.
  - qc_eq.
  - vm_compute. reflexivity.
  - intros H. apply (f_equal this) in H. vm_compute in H. discriminate.
  - qc_eq.
  - qc_eq.
  - intros H. vm_compute in H. discriminate.
Qed.

(** ** Insufficient funds *)




(** ** A limit order without a price *)

(** C9.  [create_order(symbol, 'limit', side, amount, price=None)] on a
    known symbol with a sufficient balance is not rejected: it takes the
    market branch and returns an order of type [limit] with status
    [closed], [filled = amount], [remaining = 0], priced at the current
    price times 1.001 for a buy and 0.999 for a sell. *)
Theorem limit_without_price_fills_at_market
    self symbol side amount current base quote b :
  Dict.get symbol (current_prices self) = Some current →
  side ∈ ["buy"; "sell"] →
  split "/" symbol = [base; quote] →
  Dict.get (reserve_asset side base quote) (balances self) = Some b →
  ¬ free b < reserve_amount side amount (current * slippage side) →
  ∃ order self',
    create_order symbol "limit" side amount None self = (Return order, self')
    ∧ o_type order = "limit"
    ∧ o_status order = "closed"
    ∧ o_filled order = amount
    ∧ o_remaining order = 0
    ∧ o_price order = current * (if bool_decide (side = "buy")
                                 then Q2Qc 1.001 else Q2Qc 0.999)
    ∧ Dict.get (o_id order) (orders self') = Some order.
Proof.
  intros Hcur Hside Hsplit Hb Hfree.
  eexists _, _. split.
  { eapply create_order_returns;
      [ exact Hcur | apply list_elem_of_further, list_elem_of_here | exact Hside
      | exact Hsplit | exact Hb | by rewrite execution_price_None ]. }
  cbn [built_order o_type o_status o_filled o_remaining o_price o_id orders].
  rewrite execution_price_None, fills_at_once_None.
  split_and!; try done.
  - apply Qcminus_diag.
  - apply DictFacts.get_set_eq.
Qed.

Lemma limit_without_price_fills_at_market_witness :
  ∃ order self',
    create_order "ETH/USDT" "limit" "sell" (Q2Qc 1) None seed = (Return order, self')
    ∧ o_type order = "limit"
    ∧ o_status order = "closed"
    ∧ o_filled order = Q2Qc 1
    ∧ o_remaining order = 0
    ∧ o_price order = Q2Qc 2500.00 * Q2Qc 0.999
    ∧ Dict.get (o_id order) (orders self') = Some order.
Proof.
  apply (limit_without_price_fills_at_market seed "ETH/USDT" "sell" (Q2Qc 1)
           (Q2Qc 2500.00) "ETH" "USDT" (mkBalance (Q2Qc 1.5) (Q2Qc 0.00) (Q2Qc 1.5))).
  - reflexivity.
  - apply list_elem_of_further, list_elem_of_here.
  - reflexivity.
  - reflexivity.
  - vm_compute. discriminate.
Defined.

(** ** Symbols whose base asset has no balance entry *)

(** C10.  In every run, [ADA/USDT] and [SOL/USDT] pass the symbol check
    while their base asset has no entry in [self.balances]; a sell on
    them, for any valid order type, amount and price, ends in the
    unguarded lookup [self.balances[base]] and raises [KeyError], which
    is not a [MockExchangeError]; the instance is left as it was. *)
Theorem sell_unseeded_base_raises_KeyError
    clock rnd calls symbol base order_type amount price :
  (symbol, base) ∈ [("ADA/USDT", "ADA"); ("SOL/USDT", "SOL")] →
  order_type ∈ ["market"; "limit"] →
  let self := run (__init__ clock rnd) calls in
  Dict.contains symbol (current_prices self) = true
  ∧ Dict.get base (balances self) = None
  ∧ create_order symbol order_type "sell" amount price self = (Raise (KeyError base), self)
  ∧ ∀ msg, KeyError base ≠ MockExchangeError msg.
Proof.
  intros Hsym Htype self.
  assert (Hknown : is_Some (Dict.get symbol (current_prices self))
                   ∧ Dict.get base (balances self) = None
                   ∧ split "/" symbol = [base; "USDT"]).
  { subst self. rewrite run_known_symbol, eq_None_not_Some, run_known_asset.
    apply elem_of_cons in Hsym as [[= -> ->] | Hsym];
      [| apply list_elem_of_singleton in Hsym as [= -> ->]];
      (split_and!; [decided | decided | reflexivity]). }
  destruct Hknown as ([current Hcur] & Hbase & Hsplit).
  split_and!; [| exact Hbase | | done].
  - apply DictFacts.contains_true. by eexists.
  - rewrite <- (reserve_asset_sell base "USDT").
    eapply create_order_missing_balance; eauto.
    apply list_elem_of_further, list_elem_of_here.
Qed.

Lemma sell_unseeded_base_raises_KeyError_witness :
  Dict.contains "ADA/USDT" (current_prices seed) = true
  ∧ Dict.get "ADA" (balances seed) = None
  ∧ create_order "ADA/USDT" "market" "sell" (Q2Qc 100) None seed
    = (Raise (KeyError "ADA"), seed)
  ∧ ∀ msg, KeyError "ADA" ≠ MockExchangeError msg.
Proof.
  apply (sell_unseeded_base_raises_KeyError sample_clock sample_rnd [] "ADA/USDT" "ADA"
           "market" (Q2Qc 100) None).
  - apply list_elem_of_here.
  - apply list_elem_of_here.
Defined.

(** ** Well-formed order books of a run *)

Lemma is_Some_get_set {V} k (v : V) a d :
  is_Some (Dict.get a d) → is_Some (Dict.get a (Dict.set k v d)).
Proof. rewrite DictFacts.get_set. by destruct (decide (k = a)). Qed.

(** An order stays well formed when the counter grows and a balance
    entry is overwritten. *)
Lemma order_wf_mono self self' k o :
  order_wf self k o →
  (order_counter self ≤ order_counter self')%Z →
  (∀ a, is_Some (Dict.get a (balances self)) → is_Some (Dict.get a (balances self'))) →
  order_wf self' k o.
Proof.
  intros [Hid (n & Hk & Hn) Hs Ha Hst Hc Ho] Hcnt Hbal.
  split; try done.
  - exists n. split; [done | lia].
  - by apply Hbal.
Qed.

Lemma built_order_wf self current symbol order_type side amount price base quote b :
  (1000 ≤ order_counter self)%Z →
  order_type ∈ ["market"; "limit"] →
  split "/" symbol = [base; quote] →
  Dict.get (reserve_asset side base quote) (balances self) = Some b →
  ∀ self',
    order_counter self' = (order_counter self + 1)%Z →
    (∀ a, is_Some (Dict.get a (balances self)) → is_Some (Dict.get a (balances self'))) →
    order_wf self' (pretty (order_counter self))
      (built_order (order_counter self) current symbol order_type side amount price).
Proof.
  intros Hcnt Htype Hsplit Hb self' Hcnt' Hbal.
  split; cbn [built_order o_id o_symbol o_side o_status o_remaining o_type o_filled
              o_amount].
  - done.
  - exists (order_counter self). split; [done | lia].
  - by exists base, quote.
  - unfold locked_asset. cbn [built_order o_symbol o_side]. rewrite Hsplit.
    apply Hbal. by eexists.
  - destruct (fills_at_once order_type price); decided.
  - by destruct (fills_at_once order_type price).
  - unfold fills_at_once.
    destruct (bool_decide (order_type = "market")) eqn:Hm, price; try done.
    intros _. split_and!; [| done | ring].
    apply bool_decide_eq_false_1 in Hm.
    apply elem_of_cons in Htype as [?|Htype]; [done|].
    by apply list_elem_of_singleton in Htype.
Qed.

Lemma mark_canceled_wf self k o : order_wf self k o → order_wf self k (mark_canceled o).
Proof.
  intros [Hid Hn Hs Ha Hst Hc Ho].
  split; cbn [mark_canceled o_id o_symbol o_side o_status o_remaining o_type o_filled
              o_amount]; try done.
  decided.
Qed.

Lemma effect_consistent s c s' : consistent s → Effect s c s' → consistent s'.
Proof.
  intros [Hcnt Hwf] Heff.
  destruct Heff as
    [| symbol order_type side amount price current base quote b Hcur Htype Hside Hsplit Hb Hfree
     | order_id symbol order base quote b Hord Hstatus Hsplit Hb
     | rnd symbol price Hcur]; [done | | |].
  - split; cbn [order_counter orders]; [lia|].
    intros k o Hin. apply DictFacts.elem_of_set in Hin as [[= -> ->] | Hin].
    + eapply built_order_wf; eauto. intros a. apply is_Some_get_set.
    + eapply order_wf_mono; [by apply Hwf | cbn; lia |].
      intros a. apply is_Some_get_set.
  - split; cbn [order_counter orders]; [done|].
    intros k o Hin. apply DictFacts.elem_of_set in Hin as [[= -> ->] | Hin].
    + apply mark_canceled_wf.
      eapply order_wf_mono; [apply Hwf; by apply DictFacts.get_elem_of | done |].
      intros a. apply is_Some_get_set.
    + eapply order_wf_mono; [by apply Hwf | done |].
      intros a. apply is_Some_get_set.
  - split; [done|]. intros k o Hin.
    eapply order_wf_mono; [by apply Hwf | done | done].
Qed.

Lemma init_consistent clock rnd : consistent (__init__ clock rnd).
Proof.
  split; cbn [__init__ order_counter orders]; [done|].
  intros k o Hin. by apply elem_of_nil in Hin.
Qed.

Lemma run_consistent clock rnd calls : consistent (run (__init__ clock rnd) calls).
Proof.
  apply run_ind; [apply init_consistent | intros s c s'; apply effect_consistent].
Qed.

(** ** Cancelling *)

Lemma locked_asset_split order base quote :
  split "/" (o_symbol order) = [base; quote] →
  locked_asset order = reserve_asset (o_side order) base quote.
Proof. unfold locked_asset. by intros ->. Qed.

Lemma unlock_zero b : unlock 0 b = b.
Proof.
  destruct b as [f u t]. unfold unlock, add_free, sub_used. cbn [free used total].
  f_equal; ring.
Qed.

Lemma release_amount_zero order : o_remaining order = 0 → release_amount order = 0.
Proof.
  unfold release_amount. intros ->. destruct (bool_decide _); [ring | done].
Qed.

Lemma mark_canceled_id order :
  o_status order = "canceled" → o_remaining order = 0 → mark_canceled order = order.
Proof. destruct order. cbn. by intros -> ->. Qed.

(** Cancelling a stored order that is not [closed] always returns, in a
    consistent instance. *)
Lemma cancel_order_stored self order_id symbol order :
  consistent self →
  Dict.get order_id (orders self) = Some order →
  o_status order ≠ "closed" →
  ∃ base quote b,
    split "/" (o_symbol order) = [base; quote]
    ∧ locked_asset order = reserve_asset (o_side order) base quote
    ∧ Dict.get (locked_asset order) (balances self) = Some b
    ∧ cancel_order order_id symbol self =
        (Return (mark_canceled order),
         mkExchange
           (Dict.set (locked_asset order) (unlock (release_amount order) b)
              (balances self))
           (Dict.set order_id (mark_canceled order) (orders self))
           (order_counter self) (current_prices self) (price_history self)).
Proof.
  intros Hcons Hord Hstatus.
  destruct (stored_orders_wf _ Hcons _ _ (DictFacts.get_elem_of _ _ _ Hord))
    as [_ _ (base & quote & Hsplit) [b Hb] _ _ _].
  exists base, quote, b. split_and!; try done.
  - by apply locked_asset_split.
  - rewrite (locked_asset_split _ _ _ Hsplit) in *.
    by apply cancel_order_returns.
Qed.

(** A second cancellation goes through and changes nothing. *)
Lemma cancel_canceled_noop self order_id symbol order :
  consistent self →
  Dict.get order_id (orders self) = Some order →
  o_status order = "canceled" →
  cancel_order order_id symbol self = (Return order, self).
Proof.
  intros Hcons Hord Hstatus.
  destruct (cancel_order_stored self order_id symbol order Hcons Hord)
    as (base & quote & b & _ & _ & Hb & ->); [by rewrite Hstatus|].
  pose proof (wf_canceled _ _ _
                (stored_orders_wf _ Hcons _ _ (DictFacts.get_elem_of _ _ _ Hord)) Hstatus)
    as Hrem.
  rewrite (mark_canceled_id _ Hstatus Hrem), (release_amount_zero _ Hrem), unlock_zero.
  rewrite (DictFacts.set_id _ _ _ Hb), (DictFacts.set_id _ _ _ Hord).
  by destruct self.
Qed.

(** C5.  For every order of a run that is [open] (such an order is a
    limit order), [cancel_order] returns it with status [canceled] and
    [remaining = 0] and moves exactly its remaining reservation,
    [remaining * price] of the quote asset for a buy and [remaining] of
    the base asset for a sell, from [used] back to [free]; the total of
    that asset and every other balance entry stay as they were. *)
Theorem cancel_open_order_releases clock rnd calls order_id symbol order :
  let self := run (__init__ clock rnd) calls in
  let amt := if bool_decide (o_side order = "buy")
             then o_remaining order * o_price order else o_remaining order in
  Dict.get order_id (orders self) = Some order →
  o_status order = "open" →
  ∃ base quote b order' self',
    o_type order = "limit"
    ∧ split "/" (o_symbol order) = [base; quote]
    ∧ locked_asset order = (if bool_decide (o_side order = "buy") then quote else base)
    ∧ Dict.get (locked_asset order) (balances self) = Some b
    ∧ cancel_order order_id symbol self = (Return order', self')
    ∧ o_status order' = "canceled"
    ∧ o_remaining order' = 0
    ∧ Dict.get order_id (orders self') = Some order'
    ∧ Dict.get (locked_asset order) (balances self')
      = Some (mkBalance (free b + amt) (used b - amt) (total b))
    ∧ ∀ asset, asset ≠ locked_asset order →
        Dict.get asset (balances self') = Dict.get asset (balances self).
Proof.
  intros self amt Hord Hstatus.
  pose proof (run_consistent clock rnd calls) as Hcons. fold self in Hcons.
  destruct (cancel_order_stored self order_id symbol order Hcons Hord)
    as (base & quote & b & Hsplit & Hasset & Hb & Hrun); [by rewrite Hstatus|].
  destruct (wf_open _ _ _ (stored_orders_wf _ Hcons _ _ (DictFacts.get_elem_of _ _ _ Hord))
              Hstatus) as (Htype & _ & _).
  exists base, quote, b. eexists _, _.
  split_and!; [exact Htype | exact Hsplit | exact Hasset | exact Hb | exact Hrun
              | reflexivity | reflexivity | | |];
    cbn [orders balances].
  - apply DictFacts.get_set_eq.
  - by rewrite DictFacts.get_set_eq.
  - intros asset Hne. by rewrite DictFacts.get_set_ne.
Qed.

(** The scenario of the specification: a limit buy of 1.0 ETH at 1500.0
    locks 1500 USDT, and cancelling it hands exactly 1500 USDT back. *)
Lemma cancel_open_order_releases_witness :
  let self :=
    run seed [CreateOrder "ETH/USDT" "limit" "buy" (Q2Qc 1.0) (Some (Q2Qc 1500.0))] in
  (free <$> Dict.get "USDT" (balances self) = Some (Q2Qc 8500)
   ∧ used <$> Dict.get "USDT" (balances self) = Some (Q2Qc 1500))
  ∧ ∃ order' self',
      cancel_order "1000" "ETH/USDT" self = (Return order', self')
      ∧ o_status order' = "canceled"
      ∧ o_remaining order' = 0
      ∧ free <$> Dict.get "USDT" (balances self') = Some (Q2Qc 8500 + Q2Qc 1500)
      ∧ used <$> Dict.get "USDT" (balances self') = Some (Q2Qc 1500 - Q2Qc 1500)
      ∧ total <$> Dict.get "USDT" (balances self') = Some (Q2Qc 10000).
Proof.
  intros self. split; [split; qc_eq|].
  destruct (cancel_open_order_releases sample_clock sample_rnd
              [CreateOrder "ETH/USDT" "limit" "buy" (Q2Qc 1.0) (Some (Q2Qc 1500.0))]
              "1000" "ETH/USDT"
              (built_order 1000 (Q2Qc 2500.00) "ETH/USDT" "limit" "buy" (Q2Qc 1.0)
                 (Some (Q2Qc 1500.0))))
    as (base & quote & b & order' & self' & _ & _ & _ & Hb & Hrun & Hst & Hrem & _
        & Hbal & _).
  - reflexivity.
  - reflexivity.
  - exists order', self'. split_and!; [exact Hrun | exact Hst | exact Hrem | | |];
      change (locked_asset _) with "USDT" in Hb, Hbal;
      rewrite Hbal; vm_compute in Hb; injection Hb as <-;
      cbn [fmap option_fmap option_map free used total]; qc_eq.
Defined.

(** C3 (as the code has it).  The only status that [cancel_order] rejects
    is [closed].  For an order of a run that is already [canceled], a
    further [cancel_order] returns the order again, still [canceled] with
    [remaining = 0], and leaves the instance exactly as it was; for a
    [closed] order it raises the cannot-cancel-closed-order error. *)
Theorem cancel_twice_returns_silently clock rnd calls order_id symbol order :
  let self := run (__init__ clock rnd) calls in
  Dict.get order_id (orders self) = Some order →
  (o_status order = "canceled" →
     cancel_order order_id symbol self = (Return order, self)
     ∧ o_remaining order = 0)
  ∧ (o_status order = "closed" →
       cancel_order order_id symbol self
       = (Raise (MockExchangeError ("Cannot cancel closed order: " ++ order_id)), self)).
Proof.
  intros self Hord.
  pose proof (run_consistent clock rnd calls) as Hcons. fold self in Hcons.
  split; intros Hstatus.
  - split; [by apply cancel_canceled_noop|].
    by apply (wf_canceled _ _ _
                (stored_orders_wf _ Hcons _ _ (DictFacts.get_elem_of _ _ _ Hord))).
  - by eapply cancel_order_closed.
Qed.

Lemma cancel_twice_returns_silently_witness :
  let self :=
    run seed [CreateOrder "ETH/USDT" "limit" "buy" (Q2Qc 1.0) (Some (Q2Qc 1500.0));
              CancelOrder "1000" "ETH/USDT"] in
  o_status canceled_eth_order = "canceled"
  ∧ cancel_order "1000" "ETH/USDT" self = (Return canceled_eth_order, self)
  ∧ o_remaining canceled_eth_order = 0.
Proof.
  intros self. split; [reflexivity|].
  apply (cancel_twice_returns_silently sample_clock sample_rnd
           [CreateOrder "ETH/USDT" "limit" "buy" (Q2Qc 1.0) (Some (Q2Qc 1500.0));
            CancelOrder "1000" "ETH/USDT"]
           "1000" "ETH/USDT" canceled_eth_order).
  - reflexivity.
  - reflexivity.
Defined.

(** Cancelling the same order twice: the second call returns the canceled
    order instead of raising. *)
Lemma cancel_twice_counterexample :
  let self :=
    run seed [CreateOrder "ETH/USDT" "limit" "buy" (Q2Qc 1.0) (Some (Q2Qc 1500.0));
              CancelOrder "1000" "ETH/USDT"] in
  Dict.get "1000" (orders self) = Some canceled_eth_order
  ∧ o_status canceled_eth_order = "canceled"
  ∧ cancel_order "1000" "ETH/USDT" self = (Return canceled_eth_order, self)
  ∧ ∀ e self', cancel_order "1000" "ETH/USDT" self ≠ (Raise e, self').
Proof.
  intros self.
  assert (Hord : Dict.get "1000" (orders self) = Some canceled_eth_order)
    by reflexivity.
  assert (Hrun : cancel_order "1000" "ETH/USDT" self = (Return canceled_eth_order, self)).
  { apply cancel_canceled_noop; [apply run_consistent | exact Hord | reflexivity]. }
  split_and!; [exact Hord | reflexivity | exact Hrun |].
  intros e self'. rewrite Hrun. discriminate.
Qed.

(** ** Order identifiers *)

(** A call either assigns the decimal rendering of the counter and
    advances it, or assigns nothing and leaves the counter alone. *)
Lemma created_id_counter self c :
  (created_id self c = Some (pretty (order_counter self))
   ∧ order_counter (step self c) = (order_counter self + 1)%Z)
  ∨ (created_id self c = None ∧ order_counter (step self c) = order_counter self).
Proof.
  destruct c as [symbol order_type side amount price | order_id symbol | | | | | | |];
    cbn [step created_id].
  - destruct (create_order_cases self symbol order_type side amount price)
      as [[e ->] | (current & base & quote & b & _ & _ & _ & _ & _ & _ & ->)];
      [by right | by left].
  - right. split; [done|].
    destruct (cancel_order_cases self order_id symbol)
      as [[e ->] | (order & base & quote & b & _ & _ & _ & _ & ->)]; done.
  - right. by rewrite fetch_order_pure.
  - by right.
  - by right.
  - right. split; [done|].
    destruct (fetch_ticker_cases rnd symbol self) as [-> | (p & _ & ->)]; done.
  - right. by rewrite fetch_order_book_pure.
  - right. by rewrite fetch_ohlcv_pure.
  - by right.
Qed.

Lemma created_ids_consecutive calls : ∀ self,
  created_ids self calls
  = pretty <$> seqZ (order_counter self) (Z.of_nat (length (created_ids self calls))).
Proof.
  induction calls as [|c calls IH]; intros self; [done|].
  cbn [created_ids].
  destruct (created_id_counter self c) as [[-> Hcnt] | [-> Hcnt]].
  - cbn [length]. rewrite seqZ_cons by lia. rewrite fmap_cons. f_equal.
    rewrite IH at 1. rewrite Hcnt. do 2 f_equal; lia.
  - rewrite IH at 1. by rewrite Hcnt.
Qed.

(** C7.  Within one instance the ids handed out by the successful
    [create_order] calls are, in the order of creation, the decimal
    renderings of strictly increasing integers; every one of them lies
    above the small literals below the start value 1000 of the counter,
    and the first one is 1000. *)
Theorem order_ids_strictly_increasing clock rnd calls :
  ∃ ns : list Z,
    created_ids (__init__ clock rnd) calls = pretty <$> ns
    ∧ (∀ i j a b, ns !! i = Some a → ns !! j = Some b → (i < j)%nat → (a < b)%Z)
    ∧ (∀ a, a ∈ ns → (1000 ≤ a)%Z)
    ∧ (∀ a, head ns = Some a → a = 1000%Z).
Proof.
  exists (seqZ 1000 (Z.of_nat (length (created_ids (__init__ clock rnd) calls)))).
  split_and!.
  - apply (created_ids_consecutive calls (__init__ clock rnd)).
  - intros i j a b Hi Hj Hij.
    apply lookup_seqZ in Hi as [-> _]. apply lookup_seqZ in Hj as [-> _]. lia.
  - intros a Ha. apply elem_of_seqZ in Ha. lia.
  - intros a Ha. rewrite head_lookup in Ha.
    apply lookup_seqZ in Ha as [-> _]. lia.
Qed.

Example created_ids_sample :
  created_ids seed
    [ CreateOrder "BTC/USDT" "market" "buy" (Q2Qc 0.01) None;
      CreateOrder "BTC/USDT" "market" "sell" (Q2Qc 1) None;
      FetchBalance;
      CreateOrder "ETH/USDT" "limit" "buy" (Q2Qc 1.0) (Some (Q2Qc 1500.0));
      CancelOrder "1001" "ETH/USDT";
      CreateOrder "BNB/USDT" "limit" "sell" (Q2Qc 2) (Some (Q2Qc 500)) ]
  = ["1000"; "1001"; "1002"].
Proof. vm_compute. reflexivity. Qed.

(** ** The ledger under a negative amount *)

Lemma built_order_release counter current symbol order_type side amount price :
  release_amount (built_order counter current symbol order_type side amount price)
  = if fills_at_once order_type price then 0
    else reserve_amount side amount (execution_price current order_type side price).
Proof.
  unfold release_amount, reserve_amount.
  cbn [built_order o_side o_remaining o_price].
  destruct (fills_at_once order_type price), (bool_decide (side = "buy")); ring.
Qed.

(** C2 (what the code does).  [create_order] never looks at the sign of
    [amount]: a market sell of [-1] BTC from the initial state passes the
    balance check ([0.05 < -1] is false), is returned as [closed], and
    leaves the BTC entry with [used = 0.00 + (-1)], below zero, and
    [free = 0.05 - (-1)], above the total, which stays 0.05. *)
Theorem negative_amount_breaks_ledger :
  let self := step seed (CreateOrder "BTC/USDT" "market" "sell" (Q2Qc (-1)) None) in
  ∃ order b,
    create_order "BTC/USDT" "market" "sell" (Q2Qc (-1)) None seed = (Return order, self)
    ∧ o_status order = "closed"
    ∧ Dict.get "BTC" (balances self) = Some b
    ∧ used b = Q2Qc 0.00 + Q2Qc (-1)
    ∧ used b < 0
    ∧ free b = Q2Qc 0.05 - Q2Qc (-1)
    ∧ total b = Q2Qc 0.05
    ∧ total b < free b.
Proof.
  intros self.
  exists (built_order 1000 (Q2Qc 45000.00) "BTC/USDT" "market" "sell" (Q2Qc (-1)) None),
         (mkBalance (Q2Qc 0.05 - Q2Qc (-1)) (Q2Qc 0.00 + Q2Qc (-1)) (Q2Qc 0.05)).
  split_and!; reflexivity.
Qed.

(** ** The candle series *)

Lemma chained_drop n l : chained l → chained (drop n l).
Proof.
  intros Hl i c c'. rewrite !lookup_drop.
  replace (n + S i)%nat with (S (n + i)) by lia. apply Hl.
Qed.

Section candle_loop_facts.
Variable rnd : nat → Qc.
Variable current_time : Z.

Lemma candle_loop_length n : ∀ i k p,
  length (candle_loop rnd current_time n i k p) = n.
Proof. induction n as [|n IH]; intros i k p; cbn; [done | by rewrite IH]. Qed.

Lemma candle_loop_head n i k p c :
  head (candle_loop rnd current_time n i k p) = Some c → c_open c = p.
Proof. destruct n; cbn; [done | by intros [= <-]]. Qed.

Lemma candle_loop_chained n : ∀ i k p, chained (candle_loop rnd current_time n i k p).
Proof.
  induction n as [|n IH]; intros i k p idx c c'; [done|].
  cbn [candle_loop]. destruct idx as [|idx]; cbn [lookup list_lookup].
  - intros [= <-] Hnext. cbn [c_close].
    destruct n as [|n]; cbn [candle_loop lookup list_lookup] in Hnext; [done|].
    by injection Hnext as <-.
  - apply IH.
Qed.
End candle_loop_facts.

Section history_loop_facts.
Variable clock : nat → Qc.
Variable rnd : nat → Qc.

Lemma history_loop_other items : ∀ j history symbol,
  symbol ∉ items.*1 →
  Dict.get symbol (history_loop clock rnd items j history) = Dict.get symbol history.
Proof.
  induction items as [|[s p] items IH]; intros j history symbol Hnotin; [done|].
  cbn [history_loop]. rewrite fmap_cons in Hnotin. cbn [fst] in Hnotin.
  apply not_elem_of_cons in Hnotin as [Hne Hnotin].
  rewrite IH by done. by apply DictFacts.get_set_ne.
Qed.

Lemma history_loop_get items : ∀ j history i symbol price,
  NoDup items.*1 →
  items !! i = Some (symbol, price) →
  Dict.get symbol (history_loop clock rnd items j history)
  = Some (series_of clock rnd (j + i) price).
Proof.
  induction items as [|[s p] items IH]; intros j history i symbol price Hnodup Hi;
    [done|].
  rewrite fmap_cons in Hnodup. cbn [fst] in Hnodup.
  apply NoDup_cons in Hnodup as [Hnotin Hnodup].
  cbn [history_loop]. destruct i as [|i]; cbn [lookup list_lookup] in Hi.
  - injection Hi as -> ->. rewrite history_loop_other by done.
    rewrite DictFacts.get_set_eq. unfold series_of. by rewrite Nat.add_0_r.
  - rewrite (IH (S j) _ i symbol price) by done.
    by replace (S j + i)%nat with (j + S i)%nat by lia.
Qed.

(** The series of a configured symbol, as [__init__] stores it. *)
Lemma init_series symbol initial_price :
  Dict.get symbol initial_prices = Some initial_price →
  ∃ j, Dict.get symbol (price_history (__init__ clock rnd))
       = Some (series_of clock rnd j initial_price).
Proof.
  intros Hget. apply DictFacts.get_elem_of, list_elem_of_lookup in Hget as [i Hi].
  exists (0 + i)%nat. cbn [__init__ price_history]. unfold _generate_price_history.
  apply history_loop_get; [decided | exact Hi].
Qed.
End history_loop_facts.

(** C6 (as the code has it).  For every configured symbol the candle
    series is built once, by [__init__], and no run changes it; it has 24
    candles, the first opens at [initial_price * 0.95], and every later
    candle opens at the close of the one before.  [fetch_ohlcv] returns
    the whole series when [limit] is [None] or 0, and for a limit
    [l >= 1] the last [min l 24] candles, a tail that is chained in the
    same way. *)
Theorem ohlcv_series clock rnd calls symbol timeframe initial_price :
  Dict.get symbol initial_prices = Some initial_price →
  let init := __init__ clock rnd in
  let self := run init calls in
  ∃ series,
    Dict.get symbol (price_history init) = Some series
    ∧ price_history self = price_history init
    ∧ length series = 24%nat
    ∧ (∃ c, head series = Some c ∧ c_open c = initial_price * Q2Qc 0.95)
    ∧ chained series
    ∧ fetch_ohlcv symbol timeframe None self = (Return series, self)
    ∧ fetch_ohlcv symbol timeframe (Some 0%Z) self = (Return series, self)
    ∧ ∀ l : Z, (1 ≤ l)%Z →
        let tail := drop (24 - Z.to_nat l) series in
        fetch_ohlcv symbol timeframe (Some l) self = (Return tail, self)
        ∧ length tail = Z.to_nat (Z.min l 24)
        ∧ chained tail.
Proof.
  intros Hinit init self.
  destruct (init_series clock rnd symbol initial_price Hinit) as [j Hseries].
  fold init in Hseries.
  pose proof (frozen_history _ _ (run_frozen init calls)) as Hfrozen. fold self in Hfrozen.
  assert (Hknown : is_Some (Dict.get symbol (current_prices self))).
  { apply run_known_symbol. apply DictFacts.get_elem_of in Hinit.
    by apply (list_elem_of_fmap_2 fst) in Hinit. }
  destruct Hknown as [current Hcur].
  assert (Hlen : length (series_of clock rnd j initial_price) = 24%nat)
    by apply candle_loop_length.
  assert (Hfetch : ∀ limit,
    fetch_ohlcv symbol timeframe limit self
    = (Return match limit with
              | Some l => if bool_decide (l = 0%Z) then series_of clock rnd j initial_price
                          else slice_from (- l) (series_of clock rnd j initial_price)
              | None => series_of clock rnd j initial_price
              end, self)).
  { intros limit. rewrite <- Hfrozen in Hseries. clear Hfrozen. clearbody self.
    unfold fetch_ohlcv. destruct self. cbn [current_prices price_history] in *.
    mrun_with_hyps. reflexivity. }
  exists (series_of clock rnd j initial_price).
  split_and!;
    [exact Hseries | exact Hfrozen | exact Hlen | | | apply Hfetch | apply Hfetch |].
  - destruct (series_of clock rnd j initial_price) as [|c series] eqn:Hs; [done|].
    exists c. split; [done|]. eapply candle_loop_head.
    unfold series_of in Hs. by rewrite Hs.
  - apply candle_loop_chained.
  - intros l Hl tail. split_and!.
    + rewrite Hfetch, bool_decide_eq_false_2 by lia. do 2 f_equal.
      unfold slice_from. rewrite Hlen, bool_decide_eq_true_2 by lia.
      subst tail. f_equal. lia.
    + subst tail. rewrite length_drop, Hlen. lia.
    + apply chained_drop, candle_loop_chained.
Qed.

Lemma ohlcv_series_witness :
  ∃ tail,
    fetch_ohlcv "BTC/USDT" "1h" (Some 5%Z) (run seed sample_calls)
    = (Return tail, run seed sample_calls)
    ∧ length tail = 5%nat
    ∧ chained tail.
Proof.
  destruct (ohlcv_series sample_clock sample_rnd sample_calls "BTC/USDT" "1h"
              (Q2Qc 45000.00))
    as (series & _ & _ & _ & _ & _ & _ & _ & Htail); [reflexivity|].
  destruct (Htail 5%Z) as (Hfetch & Hlen & Hchain); [discriminate|].
  exists (drop (24 - Z.to_nat 5) series).
  split_and!; [exact Hfetch | exact Hlen | exact Hchain].
Defined.

(** A limit of 0 is read as no limit, and a limit above 24 cannot be
    met: both calls return all 24 candles. *)
Lemma ohlcv_limit_counterexample :
  (∃ candles,
     fetch_ohlcv "BTC/USDT" "1h" (Some 0%Z) seed = (Return candles, seed)
     ∧ length candles = 24%nat ∧ length candles ≠ 0%nat)
  ∧ (∃ candles,
       fetch_ohlcv "BTC/USDT" "1h" (Some 30%Z) seed = (Return candles, seed)
       ∧ length candles = 24%nat ∧ length candles ≠ 30%nat).
Proof.
  split; eexists; (split; [vm_compute; reflexivity|]);
    (split; [reflexivity | discriminate]).
Qed.

(** ** The order book *)

Lemma Qclt_irrefl (x : Qc) : ¬ x < x.
Proof. qc_lra. Qed.

#[global] Instance level_le_total : Total level_le.
Proof.
  intros [p1 s1] [p2 s2]. unfold level_le. cbn [fst snd].
  destruct (Qc_dec p1 p2) as [[Hlt|Hgt]|Heq]; [by left; left | by right; left |].
  destruct (Qclt_le_dec s2 s1) as [Hs|Hs].
  - right. right. split; [done | by apply Qclt_le_weak].
  - left. by right.
Qed.

#[global] Instance level_le_trans : Transitive level_le.
Proof.
  intros [p1 s1] [p2 s2] [p3 s3]. unfold level_le. cbn [fst snd].
  intros [H12|[-> H12]] [H23|[-> H23]].
  - left. by eapply Qclt_trans.
  - by left.
  - by left.
  - right. split; [done | by eapply Qcle_trans].
Qed.

#[global] Instance level_le_antisymm : AntiSymm (=) level_le.
Proof.
  intros [p1 s1] [p2 s2]. unfold level_le. cbn [fst snd].
  intros [H12|[-> H12]] [H21|[H21' H21]].
  - destruct (Qclt_irrefl p1). by eapply Qclt_trans.
  - subst. by destruct (Qclt_irrefl p1).
  - by destruct (Qclt_irrefl p2).
  - f_equal. by apply Qcle_antisym.
Qed.

#[global] Instance flip_level_le_total : Total (flip level_le).
Proof. intros x y. unfold flip. destruct (level_le_total x y); auto. Qed.
#[global] Instance flip_level_le_trans : Transitive (flip level_le).
Proof. intros x y z. unfold flip. intros ? ?. by etrans. Qed.
#[global] Instance flip_level_le_antisymm : AntiSymm (=) (flip level_le).
Proof. intros x y. unfold flip. intros ? ?. by apply (anti_symm level_le). Qed.

(** Sorting a list that is already in order gives it back. *)
Lemma merge_sort_sorted {A} (R : relation A) `{∀ x y, Decision (R x y)}
    `{!Total R, !Transitive R, !AntiSymm (=) R} l :
  StronglySorted R l → merge_sort R l = l.
Proof.
  intros Hl. apply (StronglySorted_unique R); [|done|].
  - by apply StronglySorted_merge_sort.
  - by apply merge_sort_Permutation.
Qed.

(** A list built along [seq] is in order if its generator is monotone. *)
Lemma StronglySorted_fmap_seq {A} (R : relation A) (f : nat → A) n : ∀ a,
  (∀ i j, (i < j)%nat → R (f i) (f j)) →
  StronglySorted R (f <$> seq a n).
Proof.
  induction n as [|n IH]; intros a Hf; cbn [seq fmap list_fmap]; constructor.
  - by apply IH.
  - apply Forall_fmap, Forall_seq. intros j Hj. cbn. apply Hf. lia.
Qed.

Lemma float_lt (i j : nat) :
  (i < j)%nat → float (Z.of_nat i) < float (Z.of_nat j).
Proof.
  intros Hij. unfold float, Qclt. cbn [this Q2Qc]. rewrite !Qred_correct.
  rewrite <- Zlt_Qlt. lia.
Qed.

Section book_levels.
Variable rnd : nat → Qc.
Variable price : Qc.
Hypothesis price_pos : 0 < price.

Lemma bid_level_decreasing i j :
  (i < j)%nat → (bid_level rnd price j).1 < (bid_level rnd price i).1.
Proof.
  intros Hij%float_lt. unfold bid_level. cbn [fst].
  apply Qcmult_lt_mono_pos_l; [done|]. clear -Hij. qc_lra.
Qed.

Lemma ask_level_increasing i j :
  (i < j)%nat → (ask_level rnd price i).1 < (ask_level rnd price j).1.
Proof.
  intros Hij%float_lt. unfold ask_level. cbn [fst].
  apply Qcmult_lt_mono_pos_l; [done|]. clear -Hij. qc_lra.
Qed.

Lemma sorted_reverse_bids n :
  sorted_reverse (bid_level rnd price <$> seq 0 n) = bid_level rnd price <$> seq 0 n.
Proof.
  apply (merge_sort_sorted (flip level_le)), StronglySorted_fmap_seq.
  intros i j Hij. left. by apply bid_level_decreasing.
Qed.

Lemma sorted_asks n :
  sorted (ask_level rnd price <$> seq 0 n) = ask_level rnd price <$> seq 0 n.
Proof.
  apply (merge_sort_sorted level_le), StronglySorted_fmap_seq.
  intros i j Hij. left. by apply ask_level_increasing.
Qed.
End book_levels.

(** C8 (as the code has it).  For a known symbol at a positive current
    price and a depth of at least 1 ([None] and 0 select the default 20),
    [fetch_order_book] returns exactly [depth] bids and [depth] asks.
    Level [i], counted from 0, lies at [price * (1 - 0.0001 * (i + 1))]
    on the bid side and [price * (1 + 0.0001 * (i + 1))] on the ask side:
    the offset from the price grows with the level number, not with a
    power of a ratio.  Bids come in strictly descending and asks in
    strictly ascending price order. *)
Theorem order_book_levels self rnd symbol limit price :
  Dict.get symbol (current_prices self) = Some price →
  0 < price →
  let depth := Z.to_nat (limit_or limit 20) in
  (1 ≤ limit_or limit 20)%Z →
  ∃ book,
    fetch_order_book rnd symbol limit self = (Return book, self)
    ∧ length (ob_bids book) = depth
    ∧ length (ob_asks book) = depth
    ∧ (∀ i, (i < depth)%nat →
         fst <$> ob_bids book !! i
         = Some (price * (1 - Q2Qc 0.0001 * (float (Z.of_nat i) + 1)))
         ∧ fst <$> ob_asks book !! i
           = Some (price * (1 + Q2Qc 0.0001 * (float (Z.of_nat i) + 1))))
    ∧ (∀ i j x y, ob_bids book !! i = Some x → ob_bids book !! j = Some y →
         (i < j)%nat → y.1 < x.1)
    ∧ (∀ i j x y, ob_asks book !! i = Some x → ob_asks book !! j = Some y →
         (i < j)%nat → x.1 < y.1).
Proof.
  intros Hcur Hpos depth Hdepth.
  exists (mkOrderBook symbol (bid_level rnd price <$> seq 0 depth)
                      (ask_level rnd price <$> seq 0 depth)).
  assert (Hlookup : ∀ (f : nat → Qc * Qc) i x,
            (f <$> seq 0 depth) !! i = Some x → x = f i ∧ (i < depth)%nat).
  { intros f i x. rewrite list_lookup_fmap.
    destruct (seq 0 depth !! i) as [k|] eqn:Hk; [|done].
    apply lookup_seq in Hk as [-> ?]. by intros [= <-]. }
  split_and!; cbn [ob_bids ob_asks].
  - rewrite <- (sorted_reverse_bids rnd price Hpos), <- (sorted_asks rnd price Hpos).
    unfold fetch_order_book. destruct self. cbn [current_prices] in Hcur.
    mrun_with_hyps. reflexivity.
  - by rewrite length_fmap, length_seq.
  - by rewrite length_fmap, length_seq.
  - intros i Hi. rewrite !list_lookup_fmap, lookup_seq_lt by done. done.
  - intros i j x y [-> _]%Hlookup [-> _]%Hlookup Hij. by apply bid_level_decreasing.
  - intros i j x y [-> _]%Hlookup [-> _]%Hlookup Hij. by apply ask_level_increasing.
Qed.

Lemma order_book_levels_witness :
  ∃ book,
    fetch_order_book sample_rnd "BTC/USDT" None seed = (Return book, seed)
    ∧ length (ob_bids book) = 20%nat
    ∧ length (ob_asks book) = 20%nat
    ∧ fst <$> ob_bids book !! 0%nat
      = Some (Q2Qc 45000.00 * (1 - Q2Qc 0.0001 * (float 0 + 1)))
    ∧ fst <$> ob_asks book !! 19%nat
      = Some (Q2Qc 45000.00 * (1 + Q2Qc 0.0001 * (float 19 + 1))).
Proof.
  destruct (order_book_levels seed sample_rnd "BTC/USDT" None (Q2Qc 45000.00))
    as (book & Hfetch & Hbids & Hasks & Hlevel & _); [reflexivity | reflexivity | discriminate |].
  exists book. split_and!; [exact Hfetch | exact Hbids | exact Hasks | |].
  - destruct (Hlevel 0%nat) as [-> _]; [apply Nat.lt_0_succ | reflexivity].
  - destruct (Hlevel 19%nat) as [_ ->]; [apply Nat.lt_succ_diag_r | reflexivity].
Defined.

(** The bids of the seed book for BTC/USDT lie at 44995.5, 44991 and
    44986.5: equal differences, so no ratio [1 - r] steps from the
    current price 45000 through them.  A requested depth of 0 gives the
    default 20 levels. *)
Lemma order_book_counterexample :
  (∃ book,
     fetch_order_book sample_rnd "BTC/USDT" (Some 3%Z) seed = (Return book, seed)
     ∧ fst <$> ob_bids book !! 0%nat = Some (Q2Qc 44995.5)
     ∧ fst <$> ob_bids book !! 1%nat = Some (Q2Qc 44991)
     ∧ fst <$> ob_bids book !! 2%nat = Some (Q2Qc 44986.5)
     ∧ ¬ ∃ r : Qc, ∀ i x, ob_bids book !! i = Some x →
                          x.1 = Q2Qc 45000 * (1 - r) ^ S i)
  ∧ (∃ book,
       fetch_order_book sample_rnd "BTC/USDT" (Some 0%Z) seed = (Return book, seed)
       ∧ length (ob_bids book) = 20%nat
       ∧ length (ob_bids book) ≠ 0%nat).
Proof.
  split.
  - eexists. split; [vm_compute; reflexivity|].
    split_and!; [qc_eq | qc_eq | qc_eq |].
    intros [r Hr].
    pose proof (Hr 0%nat _ eq_refl) as H0. pose proof (Hr 1%nat _ eq_refl) as H1.
    cbn [fst Qcpower] in H0, H1.
    assert (Hr' : 1 - r = Q2Qc 0.9999).
    { apply Qc_is_canon. apply Qc_eq_iff in H0. clear -H0. qc_unfold. lra. }
    rewrite Hr' in H1. apply (f_equal this) in H1. vm_compute in H1. discriminate.
  - eexists. split; [vm_compute; reflexivity|]. split; [reflexivity | discriminate].
Qed.

(** * Further properties of the exchange *)

(** ** The reading methods, path by path *)

Lemma fetch_order_found self order_id symbol order :
  Dict.get order_id (orders self) = Some order →
  fetch_order order_id symbol self = (Return order, self).
Proof.
  intros Hord. unfold fetch_order. destruct self. simpl in Hord.
  mrun_with_hyps. reflexivity.
Qed.

Lemma fetch_order_not_found self order_id symbol :
  Dict.get order_id (orders self) = None →
  fetch_order order_id symbol self
  = (Raise (MockExchangeError ("Order not found: " ++ order_id)), self).
Proof.
  intros Hord. unfold fetch_order. destruct self. simpl in Hord.
  mrun_with_hyps. reflexivity.
Qed.

Lemma fetch_ticker_known self rnd symbol price :
  Dict.get symbol (current_prices self) = Some price →
  fetch_ticker rnd symbol self
  = (Return (ticker_of rnd symbol price),
     set_current_prices
       (Dict.set symbol (price * uniform (rnd 0%nat) (Q2Qc 0.9995) (Q2Qc 1.0005)))
       self).
Proof.
  intros Hcur. unfold fetch_ticker, ticker_of. destruct self.
  simpl in Hcur. mrun_with_hyps. reflexivity.
Qed.

Lemma fetch_ticker_unknown self rnd symbol :
  Dict.get symbol (current_prices self) = None →
  fetch_ticker rnd symbol self
  = (Raise (MockExchangeError ("Unknown symbol: " ++ symbol)), self).
Proof.
  intros Hcur. unfold fetch_ticker. destruct self.
  simpl in Hcur. mrun_with_hyps. reflexivity.
Qed.

Lemma fetch_order_book_unknown self rnd symbol limit :
  Dict.get symbol (current_prices self) = None →
  fetch_order_book rnd symbol limit self
  = (Raise (MockExchangeError ("Unknown symbol: " ++ symbol)), self).
Proof.
  intros Hcur. unfold fetch_order_book. destruct self.
  simpl in Hcur. mrun_with_hyps. reflexivity.
Qed.

Lemma fetch_order_book_known self rnd symbol limit price :
  Dict.get symbol (current_prices self) = Some price →
  fetch_order_book rnd symbol limit self
  = (Return (mkOrderBook symbol
               (sorted_reverse (bid_level rnd price <$> range (limit_or limit 20)))
               (sorted (ask_level rnd price <$> range (limit_or limit 20)))),
     self).
Proof.
  intros Hcur. unfold fetch_order_book. destruct self.
  simpl in Hcur. mrun_with_hyps. reflexivity.
Qed.

Lemma fetch_ohlcv_unknown self symbol timeframe limit :
  Dict.get symbol (current_prices self) = None →
  fetch_ohlcv symbol timeframe limit self
  = (Raise (MockExchangeError ("Unknown symbol: " ++ symbol)), self).
Proof.
  intros Hcur. unfold fetch_ohlcv. destruct self.
  simpl in Hcur. mrun_with_hyps. reflexivity.
Qed.

Lemma fetch_ohlcv_known self symbol timeframe limit price :
  Dict.get symbol (current_prices self) = Some price →
  raised (fetch_ohlcv symbol timeframe limit self).1 = None.
Proof.
  intros Hcur. unfold fetch_ohlcv. destruct self.
  simpl in Hcur. mrun_with_hyps. reflexivity.
Qed.

(** ** Failed calls *)

(** X1.  A call that raises leaves the instance exactly as it was: every
    [raise] of the adapter comes before the first assignment of its
    method, so no failure leaves a half-updated ledger or order table. *)
Theorem raising_call_leaves_instance self c e :
  call_raises self c = Some e → step self c = self.
Proof.
  destruct c as [symbol order_type side amount price | order_id symbol | order_id symbol
                 | symbol | | rnd symbol | rnd symbol limit | symbol timeframe limit |];
    cbn [call_raises step].
  - destruct (create_order_cases self symbol order_type side amount price)
      as [[e' ->] | (current & base & quote & b & _ & _ & _ & _ & _ & _ & ->)];
      [done | discriminate].
  - destruct (cancel_order_cases self order_id symbol)
      as [[e' ->] | (order & base & quote & b & _ & _ & _ & _ & ->)];
      [done | discriminate].
  - intros _. apply fetch_order_pure.
  - done.
  - done.
  - destruct (Dict.get symbol (current_prices self)) as [price|] eqn:Hcur.
    + by rewrite (fetch_ticker_known _ _ _ _ Hcur).
    + by rewrite (fetch_ticker_unknown _ _ _ Hcur).
  - intros _. apply fetch_order_book_pure.
  - intros _. apply fetch_ohlcv_pure.
  - done.
Qed.

Lemma raising_call_leaves_instance_witness :
  let c := CreateOrder "BTC/USDT" "market" "sell" (Q2Qc 1) None in
  call_raises seed c = Some (MockExchangeError "Insufficient BTC balance")
  ∧ step seed c = seed.
Proof.
  intros c.
  assert (H : call_raises seed c = Some (MockExchangeError "Insufficient BTC balance"))
    by (vm_compute; reflexivity).
  split; [exact H | exact (raising_call_leaves_instance seed c _ H)].
Defined.

(** ** Asset totals over whole runs *)

Lemma effect_total asset s c s' : Effect s c s' → total_of asset s' = total_of asset s.
Proof.
  unfold total_of.
  destruct 1 as [| ????????? _ _ _ _ Hb _ | ?????? _ _ _ Hb | ??? _];
    cbn [balances set_current_prices]; try done.
  - rewrite DictFacts.get_set. case_decide as Heq; [|done]. subst asset. by rewrite Hb.
  - rewrite DictFacts.get_set. case_decide as Heq; [|done]. subst asset. by rewrite Hb.
Qed.

(** X2.  No sequence of calls, from any instance, changes the total of
    any asset: placing, filling and cancelling orders only move amounts
    between [free] and [used] of one entry.  A filled market order is
    never settled: what was bought is not credited and what was paid stays
    in the total. *)
Theorem run_preserves_totals self calls asset :
  total_of asset (run self calls) = total_of asset self.
Proof.
  apply (run_ind (λ s, total_of asset s = total_of asset self)); [done|].
  intros s c s' IH Heff. by rewrite (effect_total asset s c s' Heff).
Qed.

(** ** The order table *)

Lemma run_app self calls calls' : run self (calls ++ calls') = run (run self calls) calls'.
Proof. apply foldl_app. Qed.

Lemma stored_key_below_counter s k o :
  consistent s → Dict.get k (orders s) = Some o → k ≠ pretty (order_counter s).
Proof.
  intros Hcons Hk.
  destruct (wf_number _ _ _ (stored_orders_wf _ Hcons _ _ (DictFacts.get_elem_of _ _ _ Hk)))
    as (n & -> & Hn).
  intros Heq%(inj pretty). lia.
Qed.

Lemma effect_terminal_order k o s c s' :
  o_status o ≠ "open" →
  consistent s → Dict.get k (orders s) = Some o → Effect s c s' →
  Dict.get k (orders s') = Some o.
Proof.
  intros Hstatus Hcons Hk Heff.
  pose proof (stored_orders_wf _ Hcons _ _ (DictFacts.get_elem_of _ _ _ Hk)) as Hwf.
  destruct Heff as [| ????????? _ _ _ _ _ _ | order_id ? order ??? Hord Hnc _ _ | ??? _];
    cbn [orders set_current_prices]; try done.
  - rewrite DictFacts.get_set_ne; [done|].
    intros Heq. by eapply stored_key_below_counter.
  - rewrite DictFacts.get_set. case_decide as Heq; [|done]. subst order_id.
    rewrite Hk in Hord. injection Hord as <-.
    assert (Hcanceled : o_status o = "canceled").
    { pose proof (wf_status _ _ _ Hwf) as Hst.
      repeat (apply elem_of_cons in Hst as [Hst | Hst]; try done).
      by apply elem_of_nil in Hst. }
    f_equal. apply mark_canceled_id; [done | by apply (wf_canceled _ _ _ Hwf)].
Qed.

(** X3.  An order of a run that is [closed] or [canceled] is final: after
    any further calls the order table holds the very same record under
    its id.  No later order reuses the id, a [closed] order cannot be
    cancelled, and cancelling a [canceled] one rewrites the values it
    already has. *)
Theorem terminal_order_is_final clock rnd calls calls' order_id order :
  Dict.get order_id (orders (run (__init__ clock rnd) calls)) = Some order →
  o_status order ≠ "open" →
  Dict.get order_id (orders (run (__init__ clock rnd) (calls ++ calls'))) = Some order.
Proof.
  intros Hord Hstatus. rewrite run_app.
  apply (run_ind (λ s, consistent s ∧ Dict.get order_id (orders s) = Some order));
    [split; [apply run_consistent | done] |].
  intros s c s' [Hcons Hk] Heff. split.
  - by eapply effect_consistent.
  - by eapply effect_terminal_order.
Qed.

Lemma terminal_order_is_final_witness :
  ∃ order,
    Dict.get "1000" (orders (run seed (take 1 sample_calls))) = Some order
    ∧ o_status order ≠ "open"
    ∧ Dict.get "1000" (orders (run seed (take 1 sample_calls ++ drop 1 sample_calls)))
      = Some order.
Proof.
  eexists.
  assert (Hord : Dict.get "1000" (orders (run seed (take 1 sample_calls)))
                 = Some (built_order 1000 (Q2Qc 45000.00) "BTC/USDT" "market" "buy"
                           (Q2Qc 0.01) None))
    by (vm_compute; reflexivity).
  assert (Hstatus : o_status (built_order 1000 (Q2Qc 45000.00) "BTC/USDT" "market" "buy"
                                (Q2Qc 0.01) None) ≠ "open")
    by (vm_compute; discriminate).
  split_and!; [exact Hord | exact Hstatus |].
  exact (terminal_order_is_final sample_clock sample_rnd _ (drop 1 sample_calls) _ _
           Hord Hstatus).
Defined.

Lemma dict_keys_set_absent {V} k (v : V) d :
  Dict.get k d = None → Dict.keys (Dict.set k v d) = (Dict.keys d ++ [k])%list.
Proof.
  unfold Dict.keys. induction d as [|[k' v'] d IH]; cbn [Dict.get Dict.set]; [done|].
  destruct (decide (k = k')) as [->|Hne]; [done|].
  intros H. rewrite !fmap_cons. cbn [app]. f_equal. by apply IH.
Qed.

Lemma effect_ids_in_use s c s' : ids_in_use s → Effect s c s' → ids_in_use s'.
Proof.
  intros [Hge Hkeys] Heff.
  destruct Heff as [| ????????? _ _ _ _ _ _ | order_id ? order ??? Hord _ _ _ | ??? _];
    unfold ids_in_use; cbn [orders order_counter set_current_prices]; try done.
  - split; [lia|].
    rewrite dict_keys_set_absent.
    + rewrite Hkeys.
      replace (order_counter s + 1 - 1000)%Z with ((order_counter s - 1000) + 1)%Z by lia.
      rewrite seqZ_app by lia. rewrite fmap_app. do 2 f_equal.
      replace (1000 + (order_counter s - 1000))%Z with (order_counter s) by lia.
      reflexivity.
    + apply DictFacts.get_None_keys. rewrite Hkeys.
      intros (n & Heq%(inj pretty) & Hn%elem_of_seqZ)%list_elem_of_fmap. lia.
  - split; [done|]. rewrite DictFacts.keys_set_present; [done | by eexists].
Qed.

Lemma run_ids_in_use clock rnd calls : ids_in_use (run (__init__ clock rnd) calls).
Proof.
  apply (run_ind ids_in_use).
  - split; [cbn; lia | reflexivity].
  - apply effect_ids_in_use.
Qed.

Lemma run_orders_NoDup clock rnd calls :
  NoDup (Dict.keys (orders (run (__init__ clock rnd) calls))).
Proof.
  destruct (run_ids_in_use clock rnd calls) as [_ ->].
  apply (NoDup_fmap_2 _), NoDup_seqZ.
Qed.

(** X4.  At every point of a run the keys of [self.orders] are exactly
    the decimal renderings of 1000, 1001, ... up to [order_counter - 1],
    in this order: every id handed out stays in the table (orders are
    never deleted, a cancellation keeps the entry) and the counter never
    lags behind an id in use. *)
Theorem order_table_keys clock rnd calls :
  let self := run (__init__ clock rnd) calls in
  (1000 ≤ order_counter self)%Z
  ∧ Dict.keys (orders self) = pretty <$> seqZ 1000 (order_counter self - 1000).
Proof.
  apply (run_ind ids_in_use).
  - split; [cbn; lia | reflexivity].
  - intros s c s' Hids Heff. by eapply effect_ids_in_use.
Qed.

(** ** Reading orders back *)

(** X5.  An order that [create_order] has just returned can be read back
    under its id: [fetch_order] returns the same record and changes
    nothing, whatever symbol is passed along (the [symbol] argument is
    not looked at). *)
Theorem fetch_order_after_create
    self symbol order_type side amount price order self' symbol' :
  create_order symbol order_type side amount price self = (Return order, self') →
  fetch_order (o_id order) symbol' self' = (Return order, self').
Proof.
  intros Hcall. apply fetch_order_found.
  destruct (create_order_cases self symbol order_type side amount price)
    as [[e He] | (current & base & quote & b & _ & _ & _ & _ & _ & _ & He)];
    rewrite He in Hcall; [discriminate|].
  injection Hcall as <- <-. cbn [orders built_order o_id].
  apply DictFacts.get_set_eq.
Qed.

Lemma fetch_order_after_create_witness :
  let order :=
    built_order 1000 (Q2Qc 2500.00) "ETH/USDT" "limit" "buy" (Q2Qc 1.0)
      (Some (Q2Qc 1500.0)) in
  let self' := step seed (CreateOrder "ETH/USDT" "limit" "buy" (Q2Qc 1.0)
                            (Some (Q2Qc 1500.0))) in
  create_order "ETH/USDT" "limit" "buy" (Q2Qc 1.0) (Some (Q2Qc 1500.0)) seed
  = (Return order, self')
  ∧ fetch_order (o_id order) "BTC/USDT" self' = (Return order, self').
Proof.
  intros order self'.
  assert (Hcall : create_order "ETH/USDT" "limit" "buy" (Q2Qc 1.0) (Some (Q2Qc 1500.0)) seed
                  = (Return order, self')) by reflexivity.
  split; [exact Hcall |].
  exact (fetch_order_after_create _ _ _ _ _ _ _ _ "BTC/USDT" Hcall).
Defined.

(** X6.  When [cancel_order] returns, the order it returns is [canceled]
    with [remaining = 0] and otherwise as it was stored, and it is what
    [fetch_order] then returns for the id, whatever symbol is passed
    along. *)
Theorem fetch_order_after_cancel self order_id symbol order self' symbol' :
  cancel_order order_id symbol self = (Return order, self') →
  o_status order = "canceled"
  ∧ o_remaining order = 0
  ∧ (∃ stored, Dict.get order_id (orders self) = Some stored
               ∧ order = mark_canceled stored)
  ∧ fetch_order order_id symbol' self' = (Return order, self').
Proof.
  intros Hcall.
  destruct (cancel_order_cases self order_id symbol)
    as [[e He] | (stored & base & quote & b & Hord & _ & _ & _ & He)];
    rewrite He in Hcall; [discriminate|].
  injection Hcall as <- <-. split_and!; [done | done | by exists stored |].
  apply fetch_order_found. cbn [orders]. apply DictFacts.get_set_eq.
Qed.

Lemma fetch_order_after_cancel_witness :
  let self := step seed (CreateOrder "ETH/USDT" "limit" "buy" (Q2Qc 1.0)
                           (Some (Q2Qc 1500.0))) in
  let self' := step self (CancelOrder "1000" "ETH/USDT") in
  cancel_order "1000" "ETH/USDT" self = (Return canceled_eth_order, self')
  ∧ o_status canceled_eth_order = "canceled"
  ∧ o_remaining canceled_eth_order = 0
  ∧ (∃ stored, Dict.get "1000" (orders self) = Some stored
               ∧ canceled_eth_order = mark_canceled stored)
  ∧ fetch_order "1000" "" self' = (Return canceled_eth_order, self').
Proof.
  intros self self'.
  assert (Hcall : cancel_order "1000" "ETH/USDT" self = (Return canceled_eth_order, self'))
    by reflexivity.
  split; [exact Hcall |].
  exact (fetch_order_after_cancel _ _ _ _ _ "" Hcall).
Defined.

Lemma dict_get_of_elem {V} k (v : V) d :
  NoDup (Dict.keys d) → (k, v) ∈ d → Dict.get k d = Some v.
Proof.
  unfold Dict.keys. induction d as [|[k' v'] d IH]; cbn [Dict.get].
  - by intros _ ?%elem_of_nil.
  - rewrite fmap_cons. cbn [fst]. intros [Hnotin Hnd]%NoDup_cons [Heq | Hin]%elem_of_cons.
    + injection Heq as -> ->. by rewrite decide_True.
    + rewrite decide_False; [by apply IH|].
      intros ->. apply Hnotin. apply list_elem_of_fmap. by exists (k', v).
Qed.

(** X7.  In every run [fetch_open_orders] returns, without changing the
    instance, exactly the stored orders whose status is [open] and that
    pass the symbol filter: an order is listed if and only if the table
    holds it under its own id, it is [open], and the [symbol] argument is
    [None], empty, or the symbol of the order.  A symbol that is not
    configured is not an error: it gives a list without that symbol. *)
Theorem fetch_open_orders_lists_open clock rnd calls symbol :
  let self := run (__init__ clock rnd) calls in
  ∃ listed,
    fetch_open_orders symbol self = (Return listed, self)
    ∧ ∀ order,
        order ∈ listed
        ↔ Dict.get (o_id order) (orders self) = Some order
          ∧ o_status order = "open"
          ∧ wanted symbol order.
Proof.
  intros self.
  pose proof (run_consistent clock rnd calls) as Hcons.
  pose proof (run_orders_NoDup clock rnd calls) as Hnd. fold self in Hcons, Hnd.
  assert (Hvalues : ∀ order,
             order ∈ Dict.values (orders self)
             ↔ Dict.get (o_id order) (orders self) = Some order).
  { intros order. unfold Dict.values. rewrite list_elem_of_fmap. split.
    - intros ([k o] & -> & Hin). cbn [snd].
      rewrite (wf_id _ _ _ (stored_orders_wf _ Hcons _ _ Hin)).
      by apply dict_get_of_elem.
    - intros Hget. exists (o_id order, order). split; [done|].
      by apply DictFacts.get_elem_of. }
  eexists. split; [reflexivity|]. intros order. unfold wanted.
  destruct symbol as [symbol|]; [destruct (bool_decide (symbol = "")) eqn:Hempty|];
    rewrite ?list_elem_of_filter, Hvalues.
  - apply bool_decide_eq_true_1 in Hempty. tauto.
  - apply bool_decide_eq_false_1 in Hempty. tauto.
  - tauto.
Qed.

(** ** Tickers *)

Lemma ticker_factor_bounds u :
  0 ≤ u → u ≤ 1 →
  Q2Qc 0.9995 ≤ uniform u (Q2Qc 0.9995) (Q2Qc 1.0005)
  ∧ uniform u (Q2Qc 0.9995) (Q2Qc 1.0005) ≤ Q2Qc 1.0005.
Proof. intros. split; qc_lra. Qed.

Lemma ticker_of_quote rnd symbol price :
  0 < price → 0 ≤ rnd 0%nat → rnd 0%nat ≤ 1 →
  let t := ticker_of rnd symbol price in
  price * Q2Qc 0.9995 ≤ t_last t ∧ t_last t ≤ price * Q2Qc 1.0005
  ∧ t_low t < t_bid t ∧ t_bid t < t_last t ∧ t_last t < t_ask t ∧ t_ask t < t_high t.
Proof.
  intros Hpos H0 H1 t. subst t. unfold ticker_of.
  cbn [t_last t_low t_bid t_ask t_high].
  destruct (ticker_factor_bounds _ H0 H1) as [Hlo Hhi].
  set (u := uniform (rnd 0%nat) (Q2Qc 0.9995) (Q2Qc 1.0005)) in *.
  clearbody u. clear H0 H1.
  split_and!; qc_unfold; nra.
Qed.

(** X8.  [fetch_ticker] on a symbol with a positive stored price [p]
    returns a quote around the moved price [last = p * u], where [u] lies
    between 0.9995 and 1.0005: [low < bid < last < ask < high], where
    [bid = last - p * 0.0005] and [ask = last + p * 0.0005] are offset
    by a fraction of the price before the move, and [last] is what the
    call stores as the new price of the symbol.  Balances, the order
    table and the candle series are not touched. *)
Theorem fetch_ticker_quote self rnd symbol price :
  Dict.get symbol (current_prices self) = Some price →
  0 < price →
  0 ≤ rnd 0%nat ∧ rnd 0%nat ≤ 1 →
  ∃ t self',
    fetch_ticker rnd symbol self = (Return t, self')
    ∧ price * Q2Qc 0.9995 ≤ t_last t ∧ t_last t ≤ price * Q2Qc 1.0005
    ∧ t_low t < t_bid t ∧ t_bid t < t_last t ∧ t_last t < t_ask t ∧ t_ask t < t_high t
    ∧ t_bid t = t_last t - price * Q2Qc 0.0005
    ∧ t_ask t = t_last t + price * Q2Qc 0.0005
    ∧ t_close t = t_last t
    ∧ Dict.get symbol (current_prices self') = Some (t_last t)
    ∧ (∀ other, other ≠ symbol →
         Dict.get other (current_prices self') = Dict.get other (current_prices self))
    ∧ balances self' = balances self
    ∧ orders self' = orders self
    ∧ order_counter self' = order_counter self
    ∧ price_history self' = price_history self.
Proof.
  intros Hcur Hpos [H0 H1]. eexists _, _. split; [by apply fetch_ticker_known|].
  destruct (ticker_of_quote rnd symbol price Hpos H0 H1)
    as (Hlo & Hhi & Hlow & Hbid & Hask & Hhigh).
  split_and!; try done.
  - cbn [current_prices set_current_prices]. apply DictFacts.get_set_eq.
  - intros other Hne. cbn [current_prices set_current_prices].
    by apply DictFacts.get_set_ne.
Qed.

Lemma fetch_ticker_quote_witness :
  let self' := step seed (FetchTicker sample_rnd "BTC/USDT") in
  let t := ticker_of sample_rnd "BTC/USDT" (Q2Qc 45000.00) in
  fetch_ticker sample_rnd "BTC/USDT" seed = (Return t, self')
  ∧ Q2Qc 45000.00 * Q2Qc 0.9995 ≤ t_last t ∧ t_last t < t_ask t
  ∧ Dict.get "BTC/USDT" (current_prices self') = Some (t_last t).
Proof.
  intros self' t.
  destruct (fetch_ticker_quote seed sample_rnd "BTC/USDT" (Q2Qc 45000.00))
    as (t' & s' & Hcall & Hlo & _ & _ & _ & Hask & _ & _ & _ & _ & Hget & _).
  - reflexivity.
  - reflexivity.
  - (split; vm_compute; discriminate).
  - assert (Heq : fetch_ticker sample_rnd "BTC/USDT" seed = (Return t, self')) by reflexivity.
    rewrite Heq in Hcall.
    injection Hcall as <- <-.
    (split_and!; [exact Heq | exact Hlo | exact Hask | exact Hget]).
Defined.

(** ** The configured symbols *)

Lemma configured_symbols_eq :
  configured_symbols = ["BTC/USDT"; "ETH/USDT"; "BNB/USDT"; "ADA/USDT"; "SOL/USDT"].
Proof. reflexivity. Qed.

(** X9.  At every point of a run the four methods that take a market
    symbol reject every symbol outside the five that [__init__]
    configures, with the same error and before looking at any other
    argument; the instance stays as it was.  The Binance spelling without
    the slash, [BTCUSDT], is such a symbol. *)
Theorem unknown_symbol_rejected
    clock rnd calls symbol order_type side amount price rnd' limit timeframe :
  symbol ∉ configured_symbols →
  let self := run (__init__ clock rnd) calls in
  let error := MockExchangeError ("Unknown symbol: " ++ symbol) in
  create_order symbol order_type side amount price self = (Raise error, self)
  ∧ fetch_ticker rnd' symbol self = (Raise error, self)
  ∧ fetch_order_book rnd' symbol limit self = (Raise error, self)
  ∧ fetch_ohlcv symbol timeframe limit self = (Raise error, self).
Proof.
  intros Hsym self error.
  assert (Hcur : Dict.get symbol (current_prices self) = None).
  { apply eq_None_not_Some. intros Hsome. apply Hsym.
    by apply (run_known_symbol clock rnd calls symbol). }
  split_and!.
  - by apply create_order_unknown_symbol.
  - by apply fetch_ticker_unknown.
  - by apply fetch_order_book_unknown.
  - by apply fetch_ohlcv_unknown.
Qed.

Lemma unknown_symbol_rejected_witness :
  let self := run seed sample_calls in
  let error := MockExchangeError "Unknown symbol: BTCUSDT" in
  create_order "BTCUSDT" "market" "buy" (Q2Qc 0.01) None self = (Raise error, self)
  ∧ fetch_ticker sample_rnd "BTCUSDT" self = (Raise error, self)
  ∧ fetch_order_book sample_rnd "BTCUSDT" None self = (Raise error, self)
  ∧ fetch_ohlcv "BTCUSDT" "1h" None self = (Raise error, self).
Proof.
  apply (unknown_symbol_rejected sample_clock sample_rnd sample_calls "BTCUSDT").
  decided.
Defined.

(** X10.  At every point of a run the market-data methods return for each
    of the five configured symbols, whatever the other arguments are:
    [fetch_ticker], [fetch_order_book] (a negative depth gives an empty
    book) and [fetch_ohlcv] never raise on them. *)
Theorem market_data_available clock rnd calls symbol rnd' limit timeframe :
  symbol ∈ configured_symbols →
  let self := run (__init__ clock rnd) calls in
  raised (fetch_ticker rnd' symbol self).1 = None
  ∧ raised (fetch_order_book rnd' symbol limit self).1 = None
  ∧ raised (fetch_ohlcv symbol timeframe limit self).1 = None
  ∧ (∀ l, (l < 0)%Z →
       ∃ book, fetch_order_book rnd' symbol (Some l) self = (Return book, self)
               ∧ ob_bids book = [] ∧ ob_asks book = []).
Proof.
  intros Hsym self.
  destruct (proj2 (run_known_symbol clock rnd calls symbol) Hsym) as [price Hcur].
  fold self in Hcur. split_and!.
  - by rewrite (fetch_ticker_known _ _ _ _ Hcur).
  - by rewrite (fetch_order_book_known _ _ _ _ _ Hcur).
  - by eapply fetch_ohlcv_known.
  - intros l Hl. eexists. split; [by apply fetch_order_book_known|].
    cbn [ob_bids ob_asks]. unfold limit_or, range.
    rewrite bool_decide_eq_false_2 by lia.
    replace (Z.to_nat l) with 0%nat by lia. done.
Qed.

Lemma market_data_available_witness :
  let self := run seed sample_calls in
  raised (fetch_ticker sample_rnd "SOL/USDT" self).1 = None
  ∧ raised (fetch_order_book sample_rnd "SOL/USDT" (Some 5%Z) self).1 = None
  ∧ raised (fetch_ohlcv "SOL/USDT" "1h" (Some 5%Z) self).1 = None
  ∧ (∀ l, (l < 0)%Z →
       ∃ book, fetch_order_book sample_rnd "SOL/USDT" (Some l) self = (Return book, self)
               ∧ ob_bids book = [] ∧ ob_asks book = []).
Proof.
  apply (market_data_available sample_clock sample_rnd sample_calls "SOL/USDT").
  decided.
Defined.

(** ** When [create_order] accepts *)

(** X11.  [create_order] returns an order exactly when the symbol has a
    price, the type is [market] or [limit], the side is [buy] or [sell],
    the symbol splits at the slash into a base and a quote, the asset to
    reserve (quote for a buy, base for a sell) has a balance entry, and
    its free balance is not below the amount to reserve.  Nothing else is
    checked: neither the sign of the amount nor that of the price. *)
Theorem create_order_accepts_iff self symbol order_type side amount price :
  raised (create_order symbol order_type side amount price self).1 = None
  ↔ ∃ current base quote b,
      Dict.get symbol (current_prices self) = Some current
      ∧ order_type ∈ ["market"; "limit"]
      ∧ side ∈ ["buy"; "sell"]
      ∧ split "/" symbol = [base; quote]
      ∧ Dict.get (reserve_asset side base quote) (balances self) = Some b
      ∧ ¬ free b < reserve_amount side amount
                    (execution_price current order_type side price).
Proof.
  split.
  - destruct (create_order_cases self symbol order_type side amount price)
      as [[e ->] | (current & base & quote & b & ? & ? & ? & ? & ? & ? & _)];
      [discriminate|].
    intros _. by exists current, base, quote, b.
  - intros (current & base & quote & b & Hcur & Htype & Hside & Hsplit & Hb & Hfree).
    by rewrite (create_order_returns self symbol order_type side amount price
                  current base quote b Hcur Htype Hside Hsplit Hb Hfree).
Qed.

Lemma run_symbol_split clock rnd calls symbol current :
  Dict.get symbol (current_prices (run (__init__ clock rnd) calls)) = Some current →
  ∃ base, split "/" symbol = [base; "USDT"]
          ∧ (base ∈ ["BTC"; "ETH"; "BNB"]
             ∨ (symbol, base) ∈ [("ADA/USDT", "ADA"); ("SOL/USDT", "SOL")]).
Proof.
  intros Hcur.
  assert (Hsym : symbol ∈ ["BTC/USDT"; "ETH/USDT"; "BNB/USDT"; "ADA/USDT"; "SOL/USDT"]).
  { apply (run_known_symbol clock rnd calls). by eexists. }
  repeat (apply elem_of_cons in Hsym as [-> | Hsym]);
    [ exists "BTC" | exists "ETH" | exists "BNB" | exists "ADA" | exists "SOL"
    | by apply elem_of_nil in Hsym ];
    (split; [reflexivity|]); first [left; decided | right; decided].
Qed.

(** X12.  What [create_order] can raise in a run: one of the three
    argument errors, the insufficient-balance error for one of the four
    assets of the ledger, or, for a sell on [ADA/USDT] or [SOL/USDT]
    only, the [KeyError] of the missing base asset.  In particular the
    unpacking of [symbol.split('/')] never fails in a run. *)
Theorem create_order_errors clock rnd calls symbol order_type side amount price e :
  raised (create_order symbol order_type side amount price
            (run (__init__ clock rnd) calls)).1 = Some e →
  e = MockExchangeError ("Unknown symbol: " ++ symbol)
  ∨ e = MockExchangeError ("Unknown order type: " ++ order_type)
  ∨ e = MockExchangeError ("Unknown side: " ++ side)
  ∨ (∃ asset, asset ∈ ["USDT"; "BTC"; "ETH"; "BNB"]
              ∧ e = MockExchangeError ("Insufficient " ++ asset ++ " balance"))
  ∨ (∃ base, side = "sell"
             ∧ (symbol, base) ∈ [("ADA/USDT", "ADA"); ("SOL/USDT", "SOL")]
             ∧ e = KeyError base).
Proof.
  set (self := run (__init__ clock rnd) calls). intros Hraised.
  destruct (Dict.get symbol (current_prices self)) as [current|] eqn:Hcur; last first.
  { rewrite (create_order_unknown_symbol _ _ _ _ _ _ Hcur) in Hraised.
    injection Hraised as <-. by left. }
  destruct (decide (order_type ∈ ["market"; "limit"])) as [Htype|Htype]; last first.
  { rewrite (create_order_unknown_type _ _ _ _ _ _ _ Hcur Htype) in Hraised.
    injection Hraised as <-. by right; left. }
  destruct (decide (side ∈ ["buy"; "sell"])) as [Hside|Hside]; last first.
  { rewrite (create_order_unknown_side _ _ _ _ _ _ _ Hcur Htype Hside) in Hraised.
    injection Hraised as <-. by right; right; left. }
  destruct (run_symbol_split clock rnd calls symbol current Hcur) as (base & Hsplit & Hbase).
  set (asset := reserve_asset side base "USDT").
  destruct (Dict.get asset (balances self)) as [b|] eqn:Hb.
  - set (needed := reserve_amount side amount
                     (execution_price current order_type side price)).
    destruct (decide (free b < needed)) as [Hfree|Hfree].
    + rewrite (create_order_insufficient _ _ _ _ _ _ _ _ _ _
                 Hcur Htype Hside Hsplit Hb Hfree) in Hraised.
      injection Hraised as <-. right; right; right; left. exists asset.
      split; [|done]. apply (run_known_asset clock rnd calls). by eexists.
    + rewrite (create_order_returns _ _ _ _ _ _ _ _ _ _
                 Hcur Htype Hside Hsplit Hb Hfree) in Hraised.
      discriminate.
  - rewrite (create_order_missing_balance _ _ _ _ _ _ _ _ _
               Hcur Htype Hside Hsplit Hb) in Hraised.
    injection Hraised as <-. right; right; right; right.
    assert (Hno : asset ∉ ["USDT"; "BTC"; "ETH"; "BNB"]).
    { intros Hin. apply (run_known_asset clock rnd calls) in Hin.
      fold self in Hin. rewrite Hb in Hin. by destruct Hin. }
    subst asset. unfold reserve_asset in *.
    destruct (bool_decide (side = "buy")) eqn:Hbuy.
    + exfalso. apply Hno. decided.
    + apply bool_decide_eq_false_1 in Hbuy.
      apply elem_of_cons in Hside as [-> | Hside]; [done|].
      apply list_elem_of_singleton in Hside as ->.
      exists base. split_and!; [done | | done].
      destruct Hbase as [Hbase | Hbase]; [|done].
      exfalso. apply Hno.
      repeat (apply elem_of_cons in Hbase as [-> | Hbase]); try decided.
      by apply elem_of_nil in Hbase.
Qed.

Lemma create_order_errors_witness :
  let e := MockExchangeError "Unknown order type: MARKET" in
  raised (create_order "BTC/USDT" "MARKET" "buy" (Q2Qc 0.01) None
            (run seed sample_calls)).1 = Some e
  ∧ (e = MockExchangeError ("Unknown symbol: " ++ "BTC/USDT")
     ∨ e = MockExchangeError ("Unknown order type: " ++ "MARKET")
     ∨ e = MockExchangeError ("Unknown side: " ++ "buy")
     ∨ (∃ asset, asset ∈ ["USDT"; "BTC"; "ETH"; "BNB"]
                 ∧ e = MockExchangeError ("Insufficient " ++ asset ++ " balance"))
     ∨ (∃ base, "buy" = "sell"
                ∧ ("BTC/USDT", base) ∈ [("ADA/USDT", "ADA"); ("SOL/USDT", "SOL")]
                ∧ e = KeyError base)).
Proof.
  intros e.
  assert (Hraised : raised (create_order "BTC/USDT" "MARKET" "buy" (Q2Qc 0.01) None
                              (run seed sample_calls)).1 = Some e)
    by (vm_compute; reflexivity).
  split; [exact Hraised |].
  exact (create_order_errors sample_clock sample_rnd sample_calls _ _ _ _ _ _ Hraised).
Defined.

(** ** The shape of stored orders *)

Lemma built_order_shape counter current symbol order_type side amount price :
  symbol ∈ configured_symbols →
  order_type ∈ ["market"; "limit"] →
  side ∈ ["buy"; "sell"] →
  order_shape (pretty counter)
    (built_order counter current symbol order_type side amount price).
Proof.
  intros Hsym Htype Hside. split; cbn; try done.
  unfold fills_at_once. destruct (bool_decide (order_type = "market")) eqn:Hmarket.
  - left. split_and!; [done | done | ring].
  - apply bool_decide_eq_false_1 in Hmarket.
    assert (Hlimit : order_type = "limit").
    { apply elem_of_cons in Htype as [-> | Htype]; [done|].
      by apply list_elem_of_singleton in Htype. }
    destruct price as [p|]; cbn.
    + right; left. split_and!; [done | done | done | ring].
    + left. split_and!; [done | done | ring].
Qed.

Lemma mark_canceled_shape k o :
  o_status o ≠ "closed" → order_shape k o → order_shape k (mark_canceled o).
Proof.
  intros Hnc [Hid Hclient Hsym Htype Hside Hcost Havg Hst].
  split; cbn; try done.
  destruct Hst as [(Hclosed & _) | [(_ & Hlimit & Hfilled & _) | (_ & Hlimit & Hfilled & _)]];
    [done | by right; right | by right; right].
Qed.

Lemma effect_order_shape s c s' :
  Dict.keys (current_prices s) = configured_symbols
  ∧ (∀ k o, (k, o) ∈ orders s → order_shape k o) →
  Effect s c s' →
  Dict.keys (current_prices s') = configured_symbols
  ∧ (∀ k o, (k, o) ∈ orders s' → order_shape k o).
Proof.
  intros [Hkeys Hall] Heff.
  destruct Heff as [| symbol ???? current ??? Hcur Htype Hside _ _ _
                    | order_id ? order ??? Hord Hnc _ _ | ??? Hcur];
    cbn [orders current_prices set_current_prices]; [done | | |].
  - split; [done|]. intros k o [[= -> ->] | Hin]%DictFacts.elem_of_set; [|by apply Hall].
    apply built_order_shape; [|done|done].
    rewrite <- Hkeys. apply DictFacts.get_Some_keys. by eexists.
  - split; [done|]. intros k o [[= -> ->] | Hin]%DictFacts.elem_of_set; [|by apply Hall].
    apply mark_canceled_shape; [done|].
    by apply Hall, DictFacts.get_elem_of.
  - split; [|done]. rewrite DictFacts.keys_set_present; [done | by eexists].
Qed.

(** X13.  Every order in the table of a run has its key as [id],
    [mock-<id>] as [clientOrderId], one of the five configured symbols,
    [cost = amount * price] and [average = price], and its status fixes
    the fill: a [closed] order is filled in full with nothing remaining,
    an [open] order is a limit order with nothing filled and everything
    remaining, and a [canceled] order is a limit order with nothing
    filled and nothing remaining.  So a market order is never [open] or
    [canceled], and no order is ever partly filled. *)
Theorem stored_order_shape clock rnd calls order_id order :
  Dict.get order_id (orders (run (__init__ clock rnd) calls)) = Some order →
  order_shape order_id order.
Proof.
  intros Hord.
  enough (H : Dict.keys (current_prices (run (__init__ clock rnd) calls))
              = configured_symbols
              ∧ (∀ k o, (k, o) ∈ orders (run (__init__ clock rnd) calls)
                        → order_shape k o))
    by by apply H, DictFacts.get_elem_of.
  apply (run_ind (λ s, Dict.keys (current_prices s) = configured_symbols
                       ∧ (∀ k o, (k, o) ∈ orders s → order_shape k o))).
  - split; [reflexivity|]. by intros k o ?%elem_of_nil.
  - apply effect_order_shape.
Qed.

Lemma stored_order_shape_witness :
  order_shape "1000" canceled_eth_order.
Proof.
  apply (stored_order_shape sample_clock sample_rnd
           [CreateOrder "ETH/USDT" "limit" "buy" (Q2Qc 1.0) (Some (Q2Qc 1500.0));
            CancelOrder "1000" "ETH/USDT"]).
  reflexivity.
Defined.

(** ** What moves a price *)

Lemma effect_price symbol s c s' :
  polled c ≠ Some symbol → Effect s c s' →
  Dict.get symbol (current_prices s') = Dict.get symbol (current_prices s).
Proof.
  intros Hpoll Heff.
  destruct Heff as [| ????????? _ _ _ _ _ _ | ?????? _ _ _ _ | rnd polled_symbol ? _];
    cbn [current_prices set_current_prices]; try done.
  apply DictFacts.get_set_ne. intros ->. by apply Hpoll.
Qed.

(** X14.  Only [fetch_ticker] moves a price, and only that of the symbol
    it is asked for: over any calls that do not poll the ticker of a
    symbol its price stays as it was.  Market orders of any size, limit
    orders and cancellations have no effect on the price at which later
    orders fill. *)
Theorem price_moves_only_by_ticker self calls symbol :
  Forall (λ c, polled c ≠ Some symbol) calls →
  Dict.get symbol (current_prices (run self calls))
  = Dict.get symbol (current_prices self).
Proof.
  apply (run_ind_Forall (λ c, polled c ≠ Some symbol)
           (λ s, Dict.get symbol (current_prices s)
                 = Dict.get symbol (current_prices self))); [done|].
  intros s c s' Hpoll IH Heff. by rewrite (effect_price symbol s c s' Hpoll Heff).
Qed.

Lemma price_moves_only_by_ticker_witness :
  Forall (λ c, polled c ≠ Some "BTC/USDT") sample_calls
  ∧ Dict.get "BTC/USDT" (current_prices (run seed sample_calls)) = Some (Q2Qc 45000.00).
Proof.
  assert (Hcalls : Forall (λ c, polled c ≠ Some "BTC/USDT") sample_calls) by decided.
  split; [exact Hcalls |].
  exact (price_moves_only_by_ticker seed sample_calls "BTC/USDT" Hcalls).
Defined.

(** ** Placing and cancelling a limit order *)

(** X15.  Cancelling a limit order that was just placed with a price
    releases the very amount that the placement locked, [amount * price]
    of the quote asset for a buy and [amount] of the base asset for a
    sell: the entry of that asset ends with [free = (free - x) + x] and
    [used = (used + x) - x] for this one amount [x] and its total
    untouched, every other entry and every price is as before the two
    calls, and the order stays in the table as [canceled] with its id
    used up. *)
Theorem limit_order_round_trip self symbol side amount limit_price order self1 symbol' :
  create_order symbol "limit" side amount (Some limit_price) self
  = (Return order, self1) →
  ∃ self2 base quote b,
    let asset := reserve_asset side base quote in
    let x := reserve_amount side amount limit_price in
    cancel_order (o_id order) symbol' self1 = (Return (mark_canceled order), self2)
    ∧ split "/" symbol = [base; quote]
    ∧ Dict.get asset (balances self) = Some b
    ∧ Dict.get asset (balances self2)
      = Some (mkBalance (free b - x + x) (used b + x - x) (total b))
    ∧ (∀ other, other ≠ asset →
         Dict.get other (balances self2) = Dict.get other (balances self))
    ∧ current_prices self2 = current_prices self
    ∧ Dict.get (o_id order) (orders self2) = Some (mark_canceled order)
    ∧ order_counter self2 = (order_counter self + 1)%Z.
Proof.
  intros Hcall.
  destruct (create_order_cases self symbol "limit" side amount (Some limit_price))
    as [[e He] | (current & base & quote & b & Hcur & _ & Hside & Hsplit & Hb & Hfree & He)];
    rewrite He in Hcall; [discriminate|].
  injection Hcall as <- <-.
  rewrite execution_price_limit in *.
  set (order := built_order (order_counter self) current symbol "limit" side amount
                  (Some limit_price)).
  set (x := reserve_amount side amount limit_price) in *.
  assert (Hrelease : release_amount order = x).
  { subst order x. by rewrite built_order_release, fills_at_once_limit,
                              execution_price_limit. }
  eexists _, base, quote, b. cbn zeta. split.
  - eapply (cancel_order_returns _ _ _ order base quote (lock x b)).
    + cbn [orders]. apply DictFacts.get_set_eq.
    + done.
    + exact Hsplit.
    + cbn [balances]. apply DictFacts.get_set_eq.
  - cbn [balances current_prices orders order_counter].
    split_and!; [done | done | | | done | apply DictFacts.get_set_eq | done].
    + rewrite DictFacts.get_set_eq, Hrelease. reflexivity.
    + intros other Hne. by rewrite !DictFacts.get_set_ne.
Qed.

Lemma limit_order_round_trip_witness :
  let self1 := step seed (CreateOrder "ETH/USDT" "limit" "buy" (Q2Qc 1.0)
                            (Some (Q2Qc 1500.0))) in
  let x := Q2Qc 1.0 * Q2Qc 1500.0 in
  ∃ self2,
    cancel_order "1000" "" self1 = (Return canceled_eth_order, self2)
    ∧ Dict.get "USDT" (balances self2)
      = Some (mkBalance (Q2Qc 10000.00 - x + x) (Q2Qc 0.00 + x - x) (Q2Qc 10000.00))
    ∧ Dict.get "1000" (orders self2) = Some canceled_eth_order.
Proof.
  intros self1 x.
  destruct (limit_order_round_trip seed "ETH/USDT" "buy" (Q2Qc 1.0) (Q2Qc 1500.0)
              (built_order 1000 (Q2Qc 2500.00) "ETH/USDT" "limit" "buy" (Q2Qc 1.0)
                 (Some (Q2Qc 1500.0))) self1 "")
    as (self2 & base & quote & b & Hcancel & Hsplit & Hb & Hb2 & _ & _ & Hord & _);
    [reflexivity|].
  injection Hsplit as <- <-. injection Hb as <-.
  exists self2. split_and!; [exact Hcancel | exact Hb2 | exact Hord].
Defined.

(** ** The candles that [__init__] generates *)

Lemma uniform_bounds u a b :
  a ≤ b → 0 ≤ u → u ≤ 1 → a ≤ uniform u a b ∧ uniform u a b ≤ b.
Proof. intros. split; qc_unfold; nra. Qed.

Lemma Qcmax_spec a b : a ≤ Qcmax a b ∧ b ≤ Qcmax a b ∧ (Qcmax a b = a ∨ Qcmax a b = b).
Proof. unfold Qcmax. case_decide; split_and!; auto; qc_lra. Qed.

Lemma Qcmin_spec a b : Qcmin a b ≤ a ∧ Qcmin a b ≤ b ∧ (Qcmin a b = a ∨ Qcmin a b = b).
Proof. unfold Qcmin. case_decide; split_and!; auto; qc_lra. Qed.

Lemma candle_step_sane p f g h v :
  0 < p →
  Q2Qc 0.98 ≤ f → f ≤ Q2Qc 1.02 →
  Q2Qc 1.00 ≤ g → g ≤ Q2Qc 1.02 →
  Q2Qc 0.98 ≤ h → h ≤ Q2Qc 1.00 →
  Q2Qc 100 ≤ v → v ≤ Q2Qc 1000 →
  ∀ t, candle_sane (mkCandle t p (Qcmax p (p * f) * g) (Qcmin p (p * f) * h) (p * f) v).
Proof.
  intros Hp Hf1 Hf2 Hg1 Hg2 Hh1 Hh2 Hv1 Hv2 t.
  unfold candle_sane. cbn [c_open c_high c_low c_close c_volume].
  assert (Hclose : p * Q2Qc 0.98 ≤ p * f ∧ p * f ≤ p * Q2Qc 1.02) by (split; qc_unfold; nra).
  destruct Hclose as [Hc1 Hc2].
  destruct (Qcmax_spec p (p * f)) as (Hmax1 & Hmax2 & Hmax).
  destruct (Qcmin_spec p (p * f)) as (Hmin1 & Hmin2 & Hmin).
  assert (Hminge : p * Q2Qc 0.98 ≤ Qcmin p (p * f))
    by (destruct Hmin as [-> | ->]; [qc_unfold; nra | done]).
  set (close := p * f) in *. set (hi := Qcmax p close) in *. set (lo := Qcmin p close) in *.
  clearbody close hi lo. clear Hmax Hmin.
  split_and!; try done; qc_unfold; nra.
Qed.

Section candle_loop_sanity.
Variable rnd : nat → Qc.
Variable current_time : Z.
Hypothesis Hrnd : unit_readings rnd.

Lemma candle_loop_sane n : ∀ i k p c,
  0 < p → c ∈ candle_loop rnd current_time n i k p → candle_sane c.
Proof.
  induction n as [|n IH]; intros i k p c Hp; cbn [candle_loop];
    [by intros ?%elem_of_nil|].
  destruct (uniform_bounds (rnd k) (Q2Qc 0.98) (Q2Qc 1.02)) as [Hf1 Hf2];
    [qc_lra | apply Hrnd | apply Hrnd |].
  intros [-> | Hin]%elem_of_cons.
  - apply candle_step_sane; try done;
      apply uniform_bounds; first [apply Hrnd | qc_lra].
  - refine (IH _ _ _ _ _ Hin).
    set (f := uniform (rnd k) (Q2Qc 0.98) (Q2Qc 1.02)) in *. clearbody f.
    clear -Hp Hf1. qc_unfold. nra.
Qed.

Lemma candle_loop_timestamp n : ∀ i k p idx c,
  candle_loop rnd current_time n i k p !! idx = Some c →
  c_timestamp c = (current_time + (i + Z.of_nat idx) * 3600 * 1000)%Z.
Proof.
  induction n as [|n IH]; intros i k p idx c; cbn [candle_loop]; [done|].
  destruct idx as [|idx]; cbn [lookup list_lookup].
  - intros [= <-]. cbn [c_timestamp]. lia.
  - intros Hc%IH. rewrite Hc. lia.
Qed.
End candle_loop_sanity.

Lemma initial_prices_pos symbol p : Dict.get symbol initial_prices = Some p → 0 < p.
Proof.
  cbn [initial_prices Dict.get]. repeat case_decide; try done; by intros [= <-].
Qed.

Lemma init_history_series clock rnd symbol series :
  Dict.get symbol (price_history (__init__ clock rnd)) = Some series →
  ∃ j p, 0 < p ∧ series = series_of clock rnd j p.
Proof.
  intros Hget.
  destruct (Dict.get symbol initial_prices) as [p|] eqn:Hinit.
  - destruct (init_series clock rnd symbol p Hinit) as [j Hj].
    rewrite Hj in Hget. injection Hget as <-.
    exists j, p. split; [by eapply initial_prices_pos | done].
  - cbn [__init__ price_history] in Hget. unfold _generate_price_history in Hget.
    rewrite history_loop_other in Hget; [done|].
    by apply DictFacts.get_None_keys.
Qed.

(** X16.  When the readings of [random.random()] lie between 0 and 1,
    every candle that [fetch_ohlcv] can return, at any point of a run,
    is well formed: [0 < low <= open, close <= high], the close lies
    within 2% of the open ([open * 0.98 <= close <= open * 1.02]), and
    the volume lies between 100 and 1000; neighbouring candles are one
    hour (3600000 ms) apart. *)
Theorem candles_well_formed clock rnd calls symbol series :
  unit_readings rnd →
  Dict.get symbol (price_history (run (__init__ clock rnd) calls)) = Some series →
  (∀ c, c ∈ series → candle_sane c)
  ∧ (∀ i c c', series !! i = Some c → series !! S i = Some c' →
       c_timestamp c' = (c_timestamp c + 3600000)%Z).
Proof.
  intros Hrnd Hget.
  rewrite (frozen_history _ _ (run_frozen (__init__ clock rnd) calls)) in Hget.
  destruct (init_history_series clock rnd symbol series Hget) as (j & p & Hp & ->).
  unfold series_of. split.
  - intros c. apply candle_loop_sane; [done|]. clear -Hp. qc_unfold. nra.
  - intros i c c' Hc Hc'.
    rewrite (candle_loop_timestamp _ _ _ _ _ _ _ _ Hc),
            (candle_loop_timestamp _ _ _ _ _ _ _ _ Hc'). lia.
Qed.

Lemma sample_rnd_unit : unit_readings sample_rnd.
Proof.
  intros k. unfold sample_rnd.
  pose proof (Nat.mod_upper_bound (37 * k + 11) 100 ltac:(lia)) as Hlt.
  set (m := ((37 * k + 11) mod 100)%nat) in *. clearbody m.
  split; qc_unfold; unfold Qle, Qdiv, Qmult, Qinv, inject_Z; cbn; lia.
Qed.

Lemma candles_well_formed_witness :
  unit_readings sample_rnd
  ∧ (∀ c, c ∈ series_of sample_clock sample_rnd 0 (Q2Qc 45000.00) → candle_sane c).
Proof.
  split; [exact sample_rnd_unit |].
  apply (candles_well_formed sample_clock sample_rnd sample_calls "BTC/USDT");
    [exact sample_rnd_unit | reflexivity].
Defined.

(** ** The order book around the price *)

Lemma float_nat_nonneg (i : nat) : 0 ≤ float (Z.of_nat i).
Proof.
  unfold float, Qcle. cbn [this Q2Qc]. rewrite !Qred_correct.
  unfold Qle, inject_Z. cbn [Qnum Qden]. lia.
Qed.

Lemma float_nat_lt_9999 (i : nat) :
  (Z.of_nat i < 9999)%Z → float (Z.of_nat i) < Q2Qc 9999.
Proof.
  intros Hi. unfold float, Qclt. cbn [this Q2Qc]. rewrite !Qred_correct.
  unfold Qlt, inject_Z. cbn [Qnum Qden]. lia.
Qed.

Section book_bounds.
Variable rnd : nat → Qc.
Variable price : Qc.
Hypothesis price_pos : 0 < price.
Hypothesis Hrnd : unit_readings rnd.

Lemma bid_level_bounds i :
  (bid_level rnd price i).1 < price
  ∧ Q2Qc 0.1 ≤ (bid_level rnd price i).2 ∧ (bid_level rnd price i).2 ≤ Q2Qc 10.
Proof.
  unfold bid_level. cbn [fst snd]. split.
  - pose proof (float_nat_nonneg i) as Hi.
    set (x := float (Z.of_nat i)) in *. clearbody x. clear -price_pos Hi. qc_unfold. nra.
  - apply uniform_bounds; first [apply Hrnd | qc_lra].
Qed.

Lemma ask_level_bounds i :
  price < (ask_level rnd price i).1
  ∧ Q2Qc 0.1 ≤ (ask_level rnd price i).2 ∧ (ask_level rnd price i).2 ≤ Q2Qc 10.
Proof.
  unfold ask_level. cbn [fst snd]. split.
  - pose proof (float_nat_nonneg i) as Hi.
    set (x := float (Z.of_nat i)) in *. clearbody x. clear -price_pos Hi. qc_unfold. nra.
  - apply uniform_bounds; first [apply Hrnd | qc_lra].
Qed.

Lemma bid_level_pos i : (Z.of_nat i < 9999)%Z → 0 < (bid_level rnd price i).1.
Proof.
  intros Hi%float_nat_lt_9999. unfold bid_level. cbn [fst].
  set (x := float (Z.of_nat i)) in *. clearbody x. clear -price_pos Hi. qc_unfold. nra.
Qed.
End book_bounds.

(** X17.  For a symbol with a positive price, and readings of
    [random.random()] between 0 and 1, the book that [fetch_order_book]
    returns brackets the price at every depth: each bid lies strictly
    below the price and each ask strictly above it, so no bid reaches an
    ask, and every size lies between 0.1 and 10.  Up to a depth of 9999
    all bid prices are positive. *)
Theorem order_book_brackets_price self rnd symbol limit price :
  Dict.get symbol (current_prices self) = Some price →
  0 < price →
  unit_readings rnd →
  ∃ book,
    fetch_order_book rnd symbol limit self = (Return book, self)
    ∧ (∀ level, level ∈ ob_bids book →
         level.1 < price ∧ Q2Qc 0.1 ≤ level.2 ∧ level.2 ≤ Q2Qc 10)
    ∧ (∀ level, level ∈ ob_asks book →
         price < level.1 ∧ Q2Qc 0.1 ≤ level.2 ∧ level.2 ≤ Q2Qc 10)
    ∧ (∀ bid ask, bid ∈ ob_bids book → ask ∈ ob_asks book → bid.1 < ask.1)
    ∧ ((limit_or limit 20 ≤ 9999)%Z → ∀ level, level ∈ ob_bids book → 0 < level.1).
Proof.
  intros Hcur Hpos Hrnd. eexists. split; [by apply fetch_order_book_known|].
  cbn [ob_bids ob_asks]. unfold range.
  rewrite sorted_reverse_bids, sorted_asks by done.
  assert (Hbids : ∀ level, level ∈ bid_level rnd price <$> seq 0 (Z.to_nat (limit_or limit 20)) →
                           level.1 < price ∧ Q2Qc 0.1 ≤ level.2 ∧ level.2 ≤ Q2Qc 10).
  { intros level (i & -> & _)%list_elem_of_fmap. by apply bid_level_bounds. }
  assert (Hasks : ∀ level, level ∈ ask_level rnd price <$> seq 0 (Z.to_nat (limit_or limit 20)) →
                           price < level.1 ∧ Q2Qc 0.1 ≤ level.2 ∧ level.2 ≤ Q2Qc 10).
  { intros level (i & -> & _)%list_elem_of_fmap. by apply ask_level_bounds. }
  split_and!; [done | done | |].
  - intros bid ask [Hbid _]%Hbids [Hask _]%Hasks. by eapply Qclt_trans.
  - intros Hdepth level (i & -> & Hi%elem_of_seq)%list_elem_of_fmap.
    apply bid_level_pos; [done | lia].
Qed.

Lemma order_book_brackets_price_witness :
  ∃ book,
    fetch_order_book sample_rnd "BTC/USDT" (Some 5%Z) seed = (Return book, seed)
    ∧ (∀ bid ask, bid ∈ ob_bids book → ask ∈ ob_asks book → bid.1 < ask.1).
Proof.
  destruct (order_book_brackets_price seed sample_rnd "BTC/USDT" (Some 5%Z) (Q2Qc 45000.00))
    as (book & Hcall & _ & _ & Hcross & _);
    [reflexivity | reflexivity | exact sample_rnd_unit |].
  exists book. split; [exact Hcall | exact Hcross].
Defined.

(** ** The balance report *)

Lemma run_balances_entries clock rnd calls :
  ∃ usdt btc eth bnb,
    balances (run (__init__ clock rnd) calls)
    = [("USDT", usdt); ("BTC", btc); ("ETH", eth); ("BNB", bnb)].
Proof.
  pose proof (frozen_balances _ _ (run_frozen (__init__ clock rnd) calls)) as Hkeys.
  cbn [__init__ balances initial_balances] in Hkeys. unfold Dict.keys in Hkeys.
  destruct (balances (run (__init__ clock rnd) calls))
    as [|[k1 b1] [|[k2 b2] [|[k3 b3] [|[k4 b4] [|]]]]]; try done.
  cbn in Hkeys. injection Hkeys as -> -> -> ->. by exists b1, b2, b3, b4.
Qed.

(** X18.  At every point of a run [fetch_balance] reports, without
    changing the instance, seven assets in this order: the four of the
    ledger with their current [free], [used] and [total], followed by
    [XRP], [DOGE] and [SHIB] with zero in all three. *)
Theorem fetch_balance_report clock rnd calls :
  let self := run (__init__ clock rnd) calls in
  ∃ report,
    fetch_balance self = (Return report, self)
    ∧ Dict.keys (bd_free report) = ["USDT"; "BTC"; "ETH"; "BNB"; "XRP"; "DOGE"; "SHIB"]
    ∧ Dict.keys (bd_used report) = Dict.keys (bd_free report)
    ∧ Dict.keys (bd_total report) = Dict.keys (bd_free report)
    ∧ (∀ asset b, Dict.get asset (balances self) = Some b →
         Dict.get asset (bd_free report) = Some (free b)
         ∧ Dict.get asset (bd_used report) = Some (used b)
         ∧ Dict.get asset (bd_total report) = Some (total b))
    ∧ (∀ asset, asset ∈ ["XRP"; "DOGE"; "SHIB"] →
         Dict.get asset (bd_free report) = Some (Q2Qc 0.0)
         ∧ Dict.get asset (bd_used report) = Some (Q2Qc 0.0)
         ∧ Dict.get asset (bd_total report) = Some (Q2Qc 0.0)).
Proof.
  intros self. subst self.
  destruct (run_balances_entries clock rnd calls) as (usdt & btc & eth & bnb & Hbal).
  destruct (run (__init__ clock rnd) calls) as [bal ords cnt prices hist].
  cbn [balances] in Hbal. subst bal.
  eexists. split; [reflexivity|]. split_and!; [reflexivity | reflexivity | reflexivity | |].
  - intros asset b. cbn [balances Dict.get].
    repeat case_decide; try done; subst asset; by intros [= <-].
  - intros asset Hin.
    repeat (apply elem_of_cons in Hin as [-> | Hin]); [by cbn .. |].
    by apply elem_of_nil in Hin.
Qed.

(** ** How far a price can drift *)

Lemma polls_snoc symbol calls c :
  polls symbol (calls ++ [c])
  = if decide (polled c = Some symbol) then S (polls symbol calls) else polls symbol calls.
Proof.
  unfold polls. rewrite filter_app, length_app.
  case_decide; [rewrite filter_cons_True by done | rewrite filter_cons_False by done];
    cbn; lia.
Qed.

Lemma drift_floor_pos price n : 0 < price → 0 < price * Q2Qc 0.999 ^ n.
Proof.
  intros Hp. induction n as [|n IH]; cbn [Qcpower].
  - by rewrite Qcmult_1_r.
  - set (x := Q2Qc 0.999 ^ n) in *. clearbody x. clear -IH Hp. qc_unfold. nra.
Qed.

Lemma drift_step lo p hi u a b :
  0 < lo → lo ≤ p → p ≤ hi → 0 < a → a ≤ u → u ≤ b →
  lo * a ≤ p * u ∧ p * u ≤ hi * b.
Proof. intros. split; qc_unfold; nra. Qed.

(** X19.  A price drifts by less than 0.1% per ticker poll: from a
    positive price [p], after any calls of which [n] poll the ticker of
    the symbol, each ticker poll drawing its reading of
    [random.random()] between 0 and 1, the stored price is still
    positive and lies between [p * 0.999^n] and [p * 1.001^n].  Nothing
    is asked of the other calls: orders of any amount and price leave
    the bound as it is. *)
Theorem price_drift_bounded self calls symbol price :
  Forall unit_poll calls →
  Dict.get symbol (current_prices self) = Some price →
  0 < price →
  ∃ price',
    Dict.get symbol (current_prices (run self calls)) = Some price'
    ∧ 0 < price'
    ∧ price * Q2Qc 0.999 ^ polls symbol calls ≤ price'
    ∧ price' ≤ price * Q2Qc 1.001 ^ polls symbol calls.
Proof.
  intros Hvalid Hcur Hpos. induction calls as [|c calls IH] using rev_ind.
  - exists price. cbn [polls filter list_filter length Qcpower run foldl].
    rewrite !Qcmult_1_r. split_and!; [done | done | apply Qcle_refl | apply Qcle_refl].
  - apply Forall_app in Hvalid as [Hvalid Hc]. apply Forall_cons_1 in Hc as [Hc _].
    destruct (IH Hvalid) as (p & Hp & Hppos & Hlo & Hhi). clear IH.
    rewrite run_snoc, polls_snoc.
    pose proof (step_effect (run self calls) c) as Heff.
    case_decide as Hpoll.
    + destruct c as [| | | | | rnd polled_symbol | | |]; try done.
      cbn [polled] in Hpoll. injection Hpoll as ->.
      cbn [step]. rewrite (fetch_ticker_known _ _ _ _ Hp).
      cbn [snd current_prices set_current_prices]. rewrite DictFacts.get_set_eq.
      destruct Hc as [H0 H1].
      destruct (ticker_factor_bounds _ H0 H1) as [Ha Hb].
      eexists. split; [done|]. cbn [Qcpower].
      rewrite !(Qcmult_comm (Q2Qc _) (_ ^ _)), !Qcmult_assoc.
      pose proof (drift_floor_pos price (polls symbol calls) Hpos) as Hfloor.
      assert (Ha' : Q2Qc 0.999 ≤ uniform (rnd 0%nat) (Q2Qc 0.9995) (Q2Qc 1.0005))
        by (clear -Ha; qc_unfold; lra).
      assert (Hb' : uniform (rnd 0%nat) (Q2Qc 0.9995) (Q2Qc 1.0005) ≤ Q2Qc 1.001)
        by (clear -Hb; qc_unfold; lra).
      destruct (drift_step _ _ _ _ (Q2Qc 0.999) (Q2Qc 1.001) Hfloor Hlo Hhi
                  ltac:(done) Ha' Hb') as [Hlo' Hhi'].
      split_and!; [|done|done].
      eapply Qclt_le_trans; [|exact Hlo'].
      set (x := price * Q2Qc 0.999 ^ polls symbol calls) in *. clearbody x.
      clear -Hfloor. qc_unfold. nra.
    + exists p. rewrite (effect_price symbol _ _ _ Hpoll Heff). done.
Qed.

Lemma price_drift_bounded_witness :
  Forall unit_poll sample_calls
  ∧ ∃ price',
      Dict.get "ETH/USDT" (current_prices (run seed sample_calls)) = Some price'
      ∧ 0 < price'
      ∧ Q2Qc 2500.00 * Q2Qc 0.999 ^ polls "ETH/USDT" sample_calls ≤ price'
      ∧ price' ≤ Q2Qc 2500.00 * Q2Qc 1.001 ^ polls "ETH/USDT" sample_calls.
Proof.
  assert (Hvalid : Forall unit_poll sample_calls) by decided.
  split; [exact Hvalid |].
  apply (price_drift_bounded seed sample_calls "ETH/USDT" (Q2Qc 2500.00) Hvalid);
    reflexivity.
Defined.

(** ** The outcomes of [cancel_order] *)

(** X20.  What [cancel_order] does in a run depends on the stored order
    alone: an id that is not in the table raises the order-not-found
    error, a [closed] order the cannot-cancel error, and every other
    order is returned as [canceled].  Unlike [create_order] it raises
    neither [KeyError] nor [ValueError] in a run, and its [symbol]
    argument plays no part. *)
Theorem cancel_order_outcome clock rnd calls order_id symbol :
  let self := run (__init__ clock rnd) calls in
  match Dict.get order_id (orders self) with
  | None =>
      cancel_order order_id symbol self
      = (Raise (MockExchangeError ("Order not found: " ++ order_id)), self)
  | Some order =>
      if bool_decide (o_status order = "closed")
      then cancel_order order_id symbol self
           = (Raise (MockExchangeError ("Cannot cancel closed order: " ++ order_id)),
              self)
      else ∃ self', cancel_order order_id symbol self
                    = (Return (mark_canceled order), self')
  end.
Proof.
  intros self. pose proof (run_consistent clock rnd calls) as Hcons. fold self in Hcons.
  destruct (Dict.get order_id (orders self)) as [order|] eqn:Hord.
  - case_bool_decide as Hclosed.
    + by eapply cancel_order_closed.
    + destruct (cancel_order_stored self order_id symbol order Hcons Hord Hclosed)
        as (base & quote & b & _ & _ & _ & ->). by eexists.
  - by apply cancel_order_not_found.
Qed.

(** ** Candles for a negative limit *)

Lemma slice_from_pos {A} (start : Z) (l : list A) :
  (0 ≤ start)%Z → slice_from start l = drop (Z.to_nat start) l.
Proof.
  intros Hstart. unfold slice_from. rewrite bool_decide_eq_false_2 by lia.
  destruct (decide (start ≤ Z.of_nat (length l))%Z).
  - by rewrite Z.min_l by lia.
  - rewrite Z.min_r by lia. rewrite Nat2Z.id, !drop_ge; [done | lia | lia].
Qed.

Lemma fetch_ohlcv_limit self symbol timeframe l price :
  Dict.get symbol (current_prices self) = Some price →
  l ≠ 0%Z →
  fetch_ohlcv symbol timeframe (Some l) self
  = (Return (slice_from (- l) (default [] (Dict.get symbol (price_history self)))), self).
Proof.
  intros Hcur Hl. unfold fetch_ohlcv. destruct self. simpl in Hcur.
  mrun_with_hyps. by rewrite bool_decide_eq_false_2.
Qed.

(** X22.  A negative [limit] is not rejected by [fetch_ohlcv]: for
    [limit = -n] the slice [candles[n:]] drops the first [n] candles of
    the series instead of keeping the last ones, and gives the empty list
    once [n] reaches the 24 candles of the series. *)
Theorem ohlcv_negative_limit clock rnd calls symbol timeframe l :
  symbol ∈ configured_symbols →
  (l < 0)%Z →
  let self := run (__init__ clock rnd) calls in
  ∃ series,
    Dict.get symbol (price_history self) = Some series
    ∧ length series = 24%nat
    ∧ fetch_ohlcv symbol timeframe (Some l) self
      = (Return (drop (Z.to_nat (- l)) series), self)
    ∧ ((l ≤ -24)%Z → fetch_ohlcv symbol timeframe (Some l) self = (Return [], self)).
Proof.
  intros Hsym Hl self.
  destruct (proj2 (run_known_symbol clock rnd calls symbol) Hsym) as [price Hcur].
  fold self in Hcur.
  assert (Hinit : is_Some (Dict.get symbol initial_prices))
    by by apply DictFacts.get_Some_keys.
  destruct Hinit as [p Hinit].
  destruct (init_series clock rnd symbol p Hinit) as [j Hseries].
  rewrite <- (frozen_history _ _ (run_frozen (__init__ clock rnd) calls)) in Hseries.
  fold self in Hseries.
  assert (Hcall : fetch_ohlcv symbol timeframe (Some l) self
                  = (Return (drop (Z.to_nat (- l)) (series_of clock rnd j p)), self)).
  { rewrite (fetch_ohlcv_limit _ _ _ _ _ Hcur) by lia.
    rewrite Hseries. cbn [default from_option]. by rewrite slice_from_pos by lia. }
  assert (Hlen : length (series_of clock rnd j p) = 24%nat)
    by apply candle_loop_length.
  exists (series_of clock rnd j p). split_and!; [done | done | done |].
  intros Hall. rewrite Hcall, drop_ge; [done | lia].
Qed.

Lemma ohlcv_negative_limit_witness :
  ∃ series,
    Dict.get "BTC/USDT" (price_history (run seed sample_calls)) = Some series
    ∧ length series = 24%nat
    ∧ fetch_ohlcv "BTC/USDT" "1h" (Some (-5)%Z) (run seed sample_calls)
      = (Return (drop (Z.to_nat (- -5)) series), run seed sample_calls)
    ∧ ((-5 ≤ -24)%Z →
       fetch_ohlcv "BTC/USDT" "1h" (Some (-5)%Z) (run seed sample_calls)
       = (Return [], run seed sample_calls)).
Proof.
  apply (ohlcv_negative_limit sample_clock sample_rnd sample_calls "BTC/USDT" "1h" (-5));
    [decided | lia].
Defined.

(** * The client in front of the adapter *)

(** ** Strings as lists of characters *)

Lemma chars_app s1 s2 : chars (s1 ++ s2) = (chars s1 ++ chars s2)%list.
Proof.
  unfold chars. induction s1 as [|c s1 IH]; [done|].
  change (String c s1 ++ s2) with (String c (s1 ++ s2)).
  cbn [list_ascii_of_string app]. by rewrite IH.
Qed.

Lemma chars_of_chars l : chars (of_chars l) = l.
Proof. apply list_ascii_of_string_of_list_ascii. Qed.

Lemma of_chars_chars s : of_chars (chars s) = s.
Proof. apply string_of_list_ascii_of_string. Qed.

Lemma of_chars_app l1 l2 : of_chars (l1 ++ l2) = of_chars l1 ++ of_chars l2.
Proof.
  rewrite <- (of_chars_chars (of_chars l1 ++ of_chars l2)).
  by rewrite chars_app, !chars_of_chars.
Qed.

Lemma string_length_chars s : String.length s = length (chars s).
Proof. unfold chars. induction s as [|c s IH]; cbn; [done | by rewrite IH]. Qed.

Lemma contains_char_false c s : contains_char c s = false ↔ c ∉ chars s.
Proof. unfold contains_char. apply bool_decide_eq_false. Qed.

Lemma contains_char_true c s : contains_char c s = true ↔ c ∈ chars s.
Proof. unfold contains_char. apply bool_decide_eq_true. Qed.

Lemma endswith_split s suffix :
  endswith s suffix = true →
  slice_to_last (String.length suffix) s ++ suffix = s.
Proof.
  unfold endswith, slice_to_last. intros [k Hk]%bool_decide_eq_true.
  rewrite string_length_chars, Hk, length_app.
  replace (length k + length (chars suffix) - length (chars suffix))%nat
    with (length k) by lia.
  rewrite take_app_length.
  rewrite <- (of_chars_chars s), Hk, of_chars_app. by rewrite of_chars_chars.
Qed.

Lemma slices_join n s : slice_to_last n s ++ slice_from_last n s = s.
Proof.
  unfold slice_to_last, slice_from_last.
  by rewrite <- of_chars_app, take_drop, of_chars_chars.
Qed.

Lemma filter_Forall {A} (P : A → Prop) `{!∀ x, Decision (P x)} l :
  Forall P l → filter P l = l.
Proof.
  induction 1 as [|x l Hx _ IH]; [done|]. by rewrite filter_cons_True, IH.
Qed.

Lemma remove_char_insert c s1 s2 :
  c ∉ chars (s1 ++ s2) →
  remove_char c (s1 ++ String c "" ++ s2) = s1 ++ s2.
Proof.
  intros Hnotin. unfold remove_char.
  transitivity (of_chars (chars (s1 ++ s2))); [|apply of_chars_chars].
  f_equal. rewrite !chars_app in *. cbn [chars list_ascii_of_string app].
  rewrite filter_app, filter_cons_False by (by intros ?).
  rewrite <- filter_app. apply filter_Forall, Forall_forall.
  intros x Hx ->. by apply Hnotin.
Qed.

(** ** Symbol conversion *)

Lemma convert_loop_Some symbol quotes converted :
  MockClient.convert_loop symbol quotes = Some converted →
  ∃ quote,
    quote ∈ quotes ∧ endswith symbol quote = true
    ∧ converted = slice_to_last (String.length quote) symbol ++ "/" ++ quote.
Proof.
  induction quotes as [|quote quotes IH]; cbn [MockClient.convert_loop]; [done|].
  destruct (endswith symbol quote) eqn:Hends.
  - intros [= <-]. exists quote. split_and!; [apply list_elem_of_here | done | done].
  - intros (q & Hq & Hrest)%IH. exists q. split; [by apply list_elem_of_further | done].
Qed.

(** [_convert_symbol] returns its argument or puts one slash into it. *)
Lemma convert_symbol_cases symbol :
  MockClient._convert_symbol symbol = symbol
  ∨ (contains_char "/" symbol = false
     ∧ ∃ base rest, symbol = base ++ rest
                    ∧ MockClient._convert_symbol symbol = base ++ "/" ++ rest).
Proof.
  unfold MockClient._convert_symbol.
  destruct (contains_char "/" symbol) eqn:Hslash; [by left|].
  destruct (MockClient.convert_loop symbol MockClient.quote_currencies)
    as [converted|] eqn:Hloop.
  - apply convert_loop_Some in Hloop as (quote & _ & Hends & ->).
    right. split; [done|].
    exists (slice_to_last (String.length quote) symbol), quote.
    split; [by rewrite endswith_split | done].
  - destruct (bool_decide (4 < String.length symbol)%nat
              && isalpha (slice_from_last 4 symbol)); [|by left].
    right. split; [done|].
    exists (slice_to_last 4 symbol), (slice_from_last 4 symbol).
    split; [by rewrite slices_join | done].
Qed.

Lemma contains_char_insert c s1 s2 : contains_char c (s1 ++ String c "" ++ s2) = true.
Proof.
  apply contains_char_true. rewrite !chars_app. cbn [chars list_ascii_of_string].
  apply elem_of_app. right. apply list_elem_of_here.
Qed.

(** X23.  On ASCII symbols [_convert_symbol] is idempotent, and a symbol
    that contains a slash is returned as it is: converting once is
    enough, and the exchange spelling [BTC/USDT] passes through
    unchanged. *)
Theorem convert_symbol_idempotent symbol :
  is_ascii symbol →
  MockClient._convert_symbol (MockClient._convert_symbol symbol)
  = MockClient._convert_symbol symbol
  ∧ (contains_char "/" symbol = true → MockClient._convert_symbol symbol = symbol).
Proof.
  intros _. split.
  - destruct (convert_symbol_cases symbol) as [Heq | (_ & base & rest & _ & ->)];
      [by rewrite !Heq|].
    unfold MockClient._convert_symbol at 1. by rewrite contains_char_insert.
  - intros Hslash. unfold MockClient._convert_symbol. by rewrite Hslash.
Qed.

Lemma convert_symbol_idempotent_witness :
  MockClient._convert_symbol (MockClient._convert_symbol "ETHBTC")
  = MockClient._convert_symbol "ETHBTC"
  ∧ (contains_char "/" "ETHBTC" = true → MockClient._convert_symbol "ETHBTC" = "ETHBTC").
Proof. apply (convert_symbol_idempotent "ETHBTC"). decided. Defined.

(** X24.  On an ASCII symbol without a slash [_convert_symbol] inserts
    at most one slash and changes nothing else: taking the slash out
    again, as [_format_to_binance_response] does with
    [symbol.replace('/', '')], gives the symbol back. *)
Theorem convert_symbol_round_trip symbol :
  is_ascii symbol →
  contains_char "/" symbol = false →
  remove_char "/" (MockClient._convert_symbol symbol) = symbol.
Proof.
  intros _ Hslash. apply contains_char_false in Hslash.
  destruct (convert_symbol_cases symbol) as [-> | (_ & base & rest & Hsym & ->)].
  - unfold remove_char. rewrite filter_Forall; [apply of_chars_chars|].
    apply Forall_forall. intros x Hx ->. by apply Hslash.
  - rewrite Hsym in Hslash |- *. by apply remove_char_insert.
Qed.

Lemma convert_symbol_round_trip_witness :
  MockClient._convert_symbol "SOLUSDT" = "SOL/USDT"
  ∧ remove_char "/" (MockClient._convert_symbol "SOLUSDT") = "SOLUSDT".
Proof.
  split; [reflexivity|].
  apply (convert_symbol_round_trip "SOLUSDT"); [decided | reflexivity].
Defined.

Lemma endswith_app base suffix : endswith (base ++ suffix) suffix = true.
Proof.
  apply bool_decide_eq_true. rewrite chars_app. by apply suffix_app_r.
Qed.

(** Two suffixes of one string: the shorter is a suffix of the longer. *)
Lemma endswith_app_other base quote other :
  endswith quote other = false → endswith other quote = false →
  endswith (base ++ quote) other = false.
Proof.
  unfold endswith. rewrite !bool_decide_eq_false, chars_app.
  intros Hno1 Hno2 Hsuffix.
  destruct (suffix_weak_total (chars other) (chars quote) (chars base ++ chars quote));
    [done | by apply suffix_app_r | done | done].
Qed.

Lemma slice_to_last_app base suffix :
  slice_to_last (String.length suffix) (base ++ suffix) = base.
Proof.
  pose proof (endswith_split (base ++ suffix) suffix (endswith_app _ _)) as H.
  apply (f_equal chars) in H. rewrite !chars_app in H. apply app_inv_tail in H.
  rewrite <- (of_chars_chars (slice_to_last _ _)), H. apply of_chars_chars.
Qed.

(** X25.  A Binance symbol, an ASCII base asset without a slash followed
    by one of the six quote currencies of the client, converts to the
    exchange spelling with the slash before that quote currency: no two
    of the six are suffixes of one string, so the order in which the loop
    tries them does not matter. *)
Theorem convert_symbol_binance base quote :
  is_ascii base →
  contains_char "/" base = false →
  quote ∈ MockClient.quote_currencies →
  MockClient._convert_symbol (base ++ quote) = base ++ "/" ++ quote.
Proof.
  intros _ Hslash%contains_char_false Hquote.
  assert (Hnone : contains_char "/" (base ++ quote) = false).
  { apply contains_char_false. rewrite chars_app, elem_of_app. intros [Hin | Hin]; [done|].
    revert Hin. unfold MockClient.quote_currencies in Hquote.
    repeat (apply elem_of_cons in Hquote as [-> | Hquote]);
      [apply (bool_decide_unpack _); by vm_compute .. |].
    by apply elem_of_nil in Hquote. }
  unfold MockClient._convert_symbol. rewrite Hnone.
  unfold MockClient.quote_currencies in *.
  repeat (apply elem_of_cons in Hquote as [-> | Hquote]);
    [..| by apply elem_of_nil in Hquote];
    cbn [MockClient.convert_loop];
    rewrite ?endswith_app_other by reflexivity;
    by rewrite endswith_app, slice_to_last_app.
Qed.

Lemma convert_symbol_binance_witness :
  MockClient._convert_symbol ("BTC" ++ "USDT") = "BTC" ++ "/" ++ "USDT".
Proof.
  apply (convert_symbol_binance "BTC" "USDT"); [decided | reflexivity | decided].
Defined.

(** ** The account report of the client *)

Lemma dict_set_nonempty {V} k (v : V) d : Dict.set k v d ≠ [].
Proof. destruct d as [|[k' v'] d]; cbn [Dict.set]; [done|]. by case_decide. Qed.

Lemma fetch_balance_returns self :
  ∃ report, fetch_balance self = (Return report, self) ∧ bd_total report ≠ [].
Proof.
  eexists. split; [reflexivity|].
  cbn [foldl balance_data_set bd_total]. apply dict_set_nonempty.
Qed.

Lemma asset_entries_nonempty items :
  items ≠ [] →
  MockClient.asset_entries items
  = inl (MockClient.TypeError "'float' object is not subscriptable").
Proof. by destruct items as [|[asset data] items]. Qed.

(** X26.  [MockClient.get_account_balance] raises on every instance: the
    comprehension subscripts the floats of [balance['total']], which is
    never empty, so the [TypeError] of the first item is caught and
    re-raised as [MockExchangeError].  [MockClient.test_connection]
    therefore answers [False] on every instance, while
    [MockExchange.test_connection] answers [True]; none of the three
    changes the exchange. *)
Theorem client_account_report_fails self :
  MockClient.get_account_balance self
  = (Raise (MockExchangeError
              "Failed to fetch balance: 'float' object is not subscriptable"),
     self)
  ∧ MockClient.test_connection self = (Return false, self)
  ∧ test_connection self = (Return true, self).
Proof.
  assert (Hget : MockClient.get_account_balance self
                 = (Raise (MockExchangeError
                      "Failed to fetch balance: 'float' object is not subscriptable"),
                    self)).
  { unfold MockClient.get_account_balance.
    destruct (fetch_balance_returns self) as (report & -> & Hne).
    by rewrite (asset_entries_nonempty _ Hne). }
  split_and!; [done | | reflexivity].
  unfold MockClient.test_connection. by rewrite Hget.
Qed.
